(** * A shallow embedding of [APIMonitor] (src/index.js of api-security-monitor)

    The engine is an Express middleware with two backends:
    - the ephemeral backend ([saveRecords] false): three JS [Map]s held by
      the monitor, [localRequestCounts], [localRouteScans], [localBlockedIPs];
    - the shared backend ([saveRecords] true): a Redis server reached through
      ioredis, with string counters, sets and expiring keys.

    Async methods are modelled in a state-and-error monad [M]: an awaited
    promise that rejects is an [inl] error that propagates to the caller,
    together with the state changes made before it.  [Date.now()] is one
    clock value [now] (milliseconds) per middleware call. *)

From Stdlib Require Import ZArith String Ascii List Lia.
From stdpp Require Import base gmap strings list fin_maps.

Open Scope Z_scope.

(** ** Configuration: the constructor *)

(** The fields of [options] the constructor reads.  [None] is [undefined];
    numbers are integers. *)
Record Options := {
  opt_mongoURI : option string;
  opt_redisURL : option string;
  opt_maxRequests : option Z;
  opt_timeWindow : option Z;
  opt_scanThreshold : option Z;
  opt_saveRecords : option bool
}.

Definition no_options : Options :=
  {| opt_mongoURI := None; opt_redisURL := None; opt_maxRequests := None;
     opt_timeWindow := None; opt_scanThreshold := None; opt_saveRecords := None |}.

(** [process.env.MONGO_URI] and [process.env.REDIS_URL]. *)
Record Env := { env_MONGO_URI : option string; env_REDIS_URL : option string }.

(** JS [x || d] on a number: [0] (and [undefined]) are falsy. *)
Definition num_or (x : option Z) (d : Z) : Z :=
  match x with Some n => if Z.eqb n 0 then d else n | None => d end.

(** JS [x || y] on strings: [""] (and [undefined]) are falsy. *)
Definition str_or (x y : option string) : option string :=
  match x with Some s => if String.eqb s "" then y else Some s | None => y end.

(** JS [!x] on a string value. *)
Definition str_falsy (x : option string) : bool :=
  match x with Some s => String.eqb s "" | None => true end.

Record Monitor := {
  maxRequests : Z;
  timeWindow : Z;
  scanThreshold : Z;
  saveRecords : bool;
  mongoURI : option string;
  redisURL : option string
}.

(** [new APIMonitor(options)]: [inl msg] is the thrown [Error].  The two
    [connectTo*] calls catch their own errors and never throw here. *)
Definition APIMonitor_new (options : Options) (env : Env) : string + Monitor :=
  let mr := num_or (opt_maxRequests options) 10 in
  let tw := num_or (opt_timeWindow options) 60 in
  let st := num_or (opt_scanThreshold options) 5 in
  let sr := match opt_saveRecords options with Some true => true | _ => false end in
  if sr then
    let mu := str_or (opt_mongoURI options) (env_MONGO_URI env) in
    let ru := str_or (opt_redisURL options) (env_REDIS_URL env) in
    if str_falsy mu || str_falsy ru then
      inl "mongoURI and redisURL are required when saveRecords is true"%string
    else
      inr {| maxRequests := mr; timeWindow := tw; scanThreshold := st;
             saveRecords := true; mongoURI := mu; redisURL := ru |}
  else
    inr {| maxRequests := mr; timeWindow := tw; scanThreshold := st;
           saveRecords := false; mongoURI := None; redisURL := None |}.

(** ** Classification (the first lines of [handleAttackDetection]) *)

(** A JS number reaching the classifier: [None] is [NaN] (what [parseInt]
    gives on a missing Redis value); every comparison with it is false. *)
Definition Num := option Z.

Definition num_gt (x : Num) (y : Z) : bool :=
  match x with Some n => Z.ltb y n | None => false end.

Definition DDOS : string := "DDoS (Excessive Requests)".
Definition PATH_SCANNING : string := "Path Scanning".

Definition attackTypeOf (m : Monitor) (requestCount scanCount : Num) : option string :=
  if num_gt requestCount (maxRequests m) then Some DDOS
  else if num_gt scanCount (scanThreshold m) then Some PATH_SCANNING
  else None.

(** ** Identity resolution: [getClientIP] *)

(** The request fields the middleware reads. Header values are strings
    ([None]: header absent).  [conn_remoteAddress], [socket_remoteAddress]
    and [express_ip] are [req.connection.remoteAddress],
    [req.socket.remoteAddress] and [req.ip]. *)
Record Request := {
  hdr_x_forwarded_for : option string;
  hdr_x_real_ip : option string;
  conn_remoteAddress : option string;
  socket_remoteAddress : option string;
  express_ip : option string;
  originalUrl : string
}.

(** JS [String.prototype.trim] on Latin-1 text: WhiteSpace and
    LineTerminator are TAB, LF, VT, FF, CR, SPACE and NBSP (0xA0). *)
Definition js_ws (c : ascii) : bool :=
  let n := nat_of_ascii c in
  ((9 <=? n)%nat && (n <=? 13)%nat) || (n =? 32)%nat || (n =? 160)%nat.

Fixpoint trim_start (s : string) : string :=
  match s with
  | EmptyString => EmptyString
  | String c r => if js_ws c then trim_start r else s
  end.

Definition trim_end (s : string) : string :=
  string_of_list_ascii
    (rev (list_ascii_of_string (trim_start
      (string_of_list_ascii (rev (list_ascii_of_string s)))))).

Definition js_trim (s : string) : string := trim_end (trim_start s).

(** [s.split(sep)[0]]: the text before the first [sep]. *)
Fixpoint split_first (sep : ascii) (s : string) : string :=
  match s with
  | EmptyString => EmptyString
  | String c r => if Ascii.eqb c sep then EmptyString else String c (split_first sep r)
  end.

(** [s.startsWith(p)] and [s.substring(n)]. *)
Definition startsWith (s p : string) : bool := String.prefix p s.
Definition substring_from (n : nat) (s : string) : string :=
  String.substring n (String.length s - n) s.

Definition getClientIP (req : Request) : string :=
  let ip :=
    match str_or (hdr_x_forwarded_for req) None with
    | Some forwardedFor => js_trim (split_first "," forwardedFor)
    | None =>
        match str_or (hdr_x_real_ip req)
               (str_or (conn_remoteAddress req)
               (str_or (socket_remoteAddress req)
               (str_or (express_ip req) (Some "0.0.0.0")))) with
        | Some s => s
        | None => "0.0.0.0"
        end
    end in
  if String.eqb ip "::1" || String.eqb ip "::ffff:127.0.0.1" then "127.0.0.1"
  else if startsWith ip "::ffff:" then substring_from 7 ip
  else ip.

(** ** State *)

Record BlockInfo := { expiresAt : Z; reason : string }.

(** Redis values and keys.  A key carries an optional expiry instant (ms);
    an expired key behaves as absent. *)
Inductive RVal := RInt (n : Z) | RStr (s : string) | RSet (s : gset string).

Record Redis := {
  r_up : bool;                              (* server reachable *)
  r_data : gmap string (RVal * option Z)
}.

Record AttackEvent := { ev_ip : string; ev_type : string; ev_timestamp : Z }.

Record World := {
  localRequestCounts : gmap string (list Z);
  localRouteScans : gmap string (gset string);
  localBlockedIPs : gmap string BlockInfo;
  redis : Redis;
  emitted : list AttackEvent;               (* 'attack-detected' emissions *)
  (* the instance's 'attack-detected' subscribers, in registration order:
     each one returns normally ([None]) or throws ([Some err]); what a
     subscriber does besides is outside the monitor *)
  listeners : list (AttackEvent -> option string)
}.

Definition set_counts (c : gmap string (list Z)) (w : World) : World :=
  {| localRequestCounts := c; localRouteScans := localRouteScans w;
     localBlockedIPs := localBlockedIPs w; redis := redis w; emitted := emitted w;
     listeners := listeners w |}.
Definition set_scans (c : gmap string (gset string)) (w : World) : World :=
  {| localRequestCounts := localRequestCounts w; localRouteScans := c;
     localBlockedIPs := localBlockedIPs w; redis := redis w; emitted := emitted w;
     listeners := listeners w |}.
Definition set_blocked (c : gmap string BlockInfo) (w : World) : World :=
  {| localRequestCounts := localRequestCounts w; localRouteScans := localRouteScans w;
     localBlockedIPs := c; redis := redis w; emitted := emitted w;
     listeners := listeners w |}.
Definition set_rdata (d : gmap string (RVal * option Z)) (w : World) : World :=
  {| localRequestCounts := localRequestCounts w; localRouteScans := localRouteScans w;
     localBlockedIPs := localBlockedIPs w;
     redis := {| r_up := r_up (redis w); r_data := d |}; emitted := emitted w;
     listeners := listeners w |}.
Definition add_event (e : AttackEvent) (w : World) : World :=
  {| localRequestCounts := localRequestCounts w; localRouteScans := localRouteScans w;
     localBlockedIPs := localBlockedIPs w; redis := redis w; emitted := emitted w ++ [e];
     listeners := listeners w |}.

(** ** The async monad: state plus rejection *)

Definition Err := string.
Definition M (A : Type) := World -> (Err + A) * World.

Definition ret {A} (a : A) : M A := fun w => (inr a, w).
Definition throw {A} (e : Err) : M A := fun w => (inl e, w).
Definition bind {A B} (c : M A) (k : A -> M B) : M B :=
  fun w => match c w with (inl e, w') => (inl e, w') | (inr a, w') => k a w' end.
Definition modify (f : World -> World) : M unit := fun w => (inr tt, f w).
Definition gets {A} (f : World -> A) : M A := fun w => (inr (f w), w).
(** [try { c } catch { return h }] *)
Definition catch {A} (c : M A) (h : A) : M A :=
  fun w => match c w with (inl _, w') => (inr h, w') | r => r end.

Notation "'let!' x := c 'in' k" := (bind c (fun x => k))
  (at level 200, x name, c at level 100, k at level 200).

(** ** The event channel (EventEmitter) *)

(** The error of the first subscriber of [ls] that throws on [ev]. *)
Fixpoint first_throw (ls : list (AttackEvent -> option string)) (ev : AttackEvent)
  : option string :=
  match ls with
  | [] => None
  | l :: rest => match l ev with Some e => Some e | None => first_throw rest ev end
  end.

(** [this.emit('attack-detected', ev)]: the subscribers are called
    synchronously, in registration order; the first one that throws stops
    the others and the exception propagates to the caller of [emit]. *)
Definition emit (ev : AttackEvent) : M unit :=
  fun w =>
    let w' := add_event ev w in
    match first_throw (listeners w) ev with
    | Some e => (inl e, w')
    | None => (inr tt, w')
    end.

(** [monitor.on('attack-detected', l)]: appends a subscriber. *)
Definition on_attack_detected (l : AttackEvent -> option string) (w : World) : World :=
  {| localRequestCounts := localRequestCounts w; localRouteScans := localRouteScans w;
     localBlockedIPs := localBlockedIPs w; redis := redis w; emitted := emitted w;
     listeners := listeners w ++ [l] |}.

(** A computation that leaves the subscribers as they are. *)
Definition keeps_listeners {A} (c : M A) : Prop :=
  forall w, listeners (snd (c w)) = listeners w.

(** No subscriber of [w] throws, on any event. *)
Definition quiet_subscribers (w : World) : Prop :=
  forall ev, first_throw (listeners w) ev = None.

(** ** Redis commands (ioredis): each one rejects when the server is
    unreachable. *)

Definition live (d : gmap string (RVal * option Z)) (k : string) (now : Z)
  : option (RVal * option Z) :=
  match d !! k with
  | Some (v, Some e) => if Z.ltb now e then Some (v, Some e) else None
  | r => r
  end.

Definition rcmd {A} (f : gmap string (RVal * option Z) -> Err + (A * gmap string (RVal * option Z)))
  : M A :=
  fun w =>
    if r_up (redis w) then
      match f (r_data (redis w)) with
      | inl e => (inl e, w)
      | inr (a, d) => (inr a, set_rdata d w)
      end
    else (inl "Connection is closed."%string, w).

Definition WRONGTYPE : Err := "WRONGTYPE".

Definition r_incr (k : string) (now : Z) : M Z :=
  rcmd (fun d => match live d k now with
                 | Some (RInt n, e) => inr (n + 1, <[k := (RInt (n + 1), e)]> d)
                 | None => inr (1, <[k := (RInt 1, None)]> d)
                 | Some _ => inl WRONGTYPE
                 end).

Definition r_expire (k : string) (secs now : Z) : M Z :=
  rcmd (fun d => match live d k now with
                 | Some (v, _) => inr (1, <[k := (v, Some (now + secs * 1000))]> d)
                 | None => inr (0, d)
                 end).

Definition r_sadd (k member : string) (now : Z) : M Z :=
  rcmd (fun d => match live d k now with
                 | Some (RSet s, e) =>
                     inr (if bool_decide (member ∈ s) then 0 else 1,
                          <[k := (RSet ({[member]} ∪ s), e)]> d)
                 | None => inr (1, <[k := (RSet {[member]}, None)]> d)
                 | Some _ => inl WRONGTYPE
                 end).

(** [GET]: a string reply or [null]; an integer counter is returned as its
    decimal string, kept here as the number. *)
Inductive Reply := RNull | RNum (n : Z) | RText (s : string).

Definition r_get (k : string) (now : Z) : M Reply :=
  rcmd (fun d => match live d k now with
                 | Some (RInt n, _) => inr (RNum n, d)
                 | Some (RStr s, _) => inr (RText s, d)
                 | None => inr (RNull, d)
                 | Some (RSet _, _) => inl WRONGTYPE
                 end).

Definition r_scard (k : string) (now : Z) : M Z :=
  rcmd (fun d => match live d k now with
                 | Some (RSet s, _) => inr (Z.of_nat (size s), d)
                 | None => inr (0, d)
                 | Some _ => inl WRONGTYPE
                 end).

(** [redis.multi() ... .exec()]: the queued commands run in order as one
    transaction.  [exec()] rejects when the connection is closed; otherwise
    it resolves with each command's own error or result, so a command that
    fails (WRONGTYPE) changes nothing and does not stop the others. *)
Definition multi (cmds : list (M unit)) : M unit :=
  fun w =>
    if r_up (redis w) then (inr tt, fold_left (fun w c => snd (c w)) cmds w)
    else (inl "Connection is closed."%string, w).

(** A queued command, its reply ignored. *)
Definition queued {A} (c : M A) : M unit := fun w => (inr tt, snd (c w)).

(** [SET k v EX secs] *)
Definition r_set_ex (k v : string) (secs now : Z) : M unit :=
  rcmd (fun d => inr (tt, <[k := (RStr v, Some (now + secs * 1000))]> d)).

(** [TTL]: remaining seconds (rounded), -1 without expiry, -2 if absent. *)
Definition r_ttl (k : string) (now : Z) : M Z :=
  rcmd (fun d => match live d k now with
                 | Some (_, Some e) => inr ((e - now + 500) / 1000, d)
                 | Some (_, None) => inr (-1, d)
                 | None => inr (-2, d)
                 end).

(** [parseInt] of a [GET] reply. *)
Definition parseInt (r : Reply) : Num :=
  match r with RNum n => Some n | _ => None end.

(** JS [!!x] of a [GET] reply. *)
Definition reply_truthy (r : Reply) : bool :=
  match r with RNull => false | RNum _ => true | RText s => negb (String.eqb s "") end.

(** ** The engine's methods *)

Definition isIPBlocked (m : Monitor) (ip : string) (now : Z) : M bool :=
  if saveRecords m then
    catch (let! isBlocked := r_get ("blocked:" ++ ip) now in ret (reply_truthy isBlocked))
          false
  else
    fun w =>
      match localBlockedIPs w !! ip with
      | None => (inr false, w)
      | Some blockInfo =>
          if Z.leb (expiresAt blockInfo) now
          then (inr false, set_blocked (delete ip (localBlockedIPs w)) w)
          else (inr true, w)
      end.

(** The body of the 403 answer: [reason], [blockedFor] (seconds) and
    [blockedUntil] (ms since the epoch). *)
Record BlockResp := { br_reason : string; br_blockedFor : Z; br_blockedUntil : Z }.

Definition getBlockInfo (m : Monitor) (ip : string) (now : Z) : M BlockResp :=
  if saveRecords m then
    let! ttl := r_ttl ("blocked:" ++ ip) now in
    let! reason := r_get ("blocked:" ++ ip ++ ":reason") now in
    ret {| br_reason := match reason with
                        | RText s => if String.eqb s "" then "Rate limit exceeded" else s
                        | _ => "Rate limit exceeded" end;
           br_blockedFor := ttl; br_blockedUntil := now + ttl * 1000 |}
  else
    fun w =>
      match localBlockedIPs w !! ip with
      | Some blockInfo =>
          (inr {| br_reason := reason blockInfo;
                  br_blockedFor := - ((now - expiresAt blockInfo) / 1000);  (* Math.ceil *)
                  br_blockedUntil := expiresAt blockInfo |}, w)
      | None => (inl "TypeError: Cannot read properties of undefined"%string, w)
      end.

Definition updateLocalTracking (m : Monitor) (ip route : string) (now : Z) : M (Z * Z) :=
  fun w =>
    let windowStart := now - timeWindow m * 1000 in
    let counts := match localRequestCounts w !! ip with
                  | Some l => l | None => [] end in
    let scans := match localRouteScans w !! ip with
                 | Some s => s | None => ∅ end in
    let requests := List.filter (fun time => Z.ltb windowStart time) counts ++ [now] in
    let scans' := {[route]} ∪ scans in
    (inr (Z.of_nat (length requests), Z.of_nat (size scans')),
     set_scans (<[ip := scans']> (localRouteScans w))
       (set_counts (<[ip := requests]> (localRequestCounts w)) w)).

Definition handleAttackDetection (m : Monitor) (ip : string) (requestCount scanCount : Num)
    (now : Z) : M unit :=
  match attackTypeOf m requestCount scanCount with
  | None => ret tt
  | Some attackType =>
      let! _ := emit {| ev_ip := ip; ev_type := attackType; ev_timestamp := now |} in
      if saveRecords m then
        multi [r_set_ex ("blocked:" ++ ip) "1" 300 now;
               r_set_ex ("blocked:" ++ ip ++ ":reason") attackType 300 now]
      else
        modify (fun w =>
          set_scans (delete ip (localRouteScans w))
            (set_counts (delete ip (localRequestCounts w))
              (set_blocked (<[ip := {| expiresAt := now + 300 * 1000; reason := attackType |}]>
                              (localBlockedIPs w)) w)))
  end.

(** What the middleware does with the request: answer 403 with the block
    description, or call [next()]. *)
Inductive Outcome := Denied (info : BlockResp) | Next.

(** [monitorMiddleware(req, res, next)].  The [res.on('finish')] hook it
    registers runs after the response and only writes a log record; it is
    modelled apart, as [onFinish] below. *)
Definition monitorMiddleware (m : Monitor) (req : Request) (now : Z) : M Outcome :=
  let ip := getClientIP req in
  let route := originalUrl req in
  let! isBlocked := isIPBlocked m ip now in
  if isBlocked then
    let! blockInfo := getBlockInfo m ip now in
    ret (Denied blockInfo)
  else
    let! _ :=
      (if saveRecords m then
         let requestKey := ("req_count:" ++ ip)%string in
         let scanKey := ("scan_count:" ++ ip)%string in
         let! _ := multi [queued (r_incr requestKey now);
                          queued (r_expire requestKey (timeWindow m) now)] in
         let! _ := r_sadd scanKey route now in
         let! _ := r_expire scanKey (timeWindow m) now in
         let! requestCount := r_get requestKey now in
         let! scanCount := r_scard scanKey now in
         handleAttackDetection m ip (parseInt requestCount) (Some scanCount) now
       else
         let! counts := updateLocalTracking m ip route now in
         handleAttackDetection m ip (Some (fst counts)) (Some (snd counts)) now) in
    ret Next.

(** A sequence of requests, each with its arrival time, through one
    monitor. *)
Fixpoint runAll (m : Monitor) (rs : list (Request * Z)) (w : World)
  : list (Err + Outcome) * World :=
  match rs with
  | [] => ([], w)
  | (req, now) :: rest =>
      let (r, w1) := monitorMiddleware m req now w in
      let (outs, w2) := runAll m rest w1 in
      (r :: outs, w2)
  end.

(** The set of routes of a sequence of requests. *)
Definition routes_of (rs : list (Request * Z)) : gset string :=
  list_to_set (map (fun p => originalUrl (fst p)) rs).

(** ** The identity resolver as the spec describes it

    Precedence over the forwarded-for header, the real-IP header, the peer
    address and the fallback, then loopback and [::ffff:] normalisation.
    [present] says which header values count as present. *)
Definition canonicalIP_spec (ip : string) : string :=
  if String.eqb ip "::1" || String.eqb ip "::ffff:127.0.0.1" then "127.0.0.1"
  else if String.prefix "::ffff:" ip then String.substring 7 (String.length ip - 7) ip
  else ip.

Fixpoint first_present (present : option string -> option string)
    (vals : list (option string)) (fallback : string) : string :=
  match vals with
  | [] => fallback
  | v :: rest => match present v with Some s => s | None => first_present present rest fallback end
  end.

Definition resolveIdentity_spec (present : option string -> option string) (req : Request)
  : string :=
  canonicalIP_spec
    (match present (hdr_x_forwarded_for req) with
     | Some s => js_trim (split_first "," s)
     | None => first_present present
                 [hdr_x_real_ip req; conn_remoteAddress req;
                  socket_remoteAddress req; express_ip req] "0.0.0.0"
     end).

(** A header counts as present when it exists at all ... *)
Definition header_exists (v : option string) : option string := v.
(** ... or only when its value is a non-empty string. *)
Definition header_nonempty (v : option string) : option string :=
  match v with Some s => if String.eqb s "" then None else Some s | None => None end.


(** The shared-backend state of [ip] after the requests [done]: the
    server is reachable, there is no block key, and the counter and route
    set hold [done] with expiries no earlier than [horizon]. *)
Definition tracked_shared (w : World) (ip : string) (done : list (Request * Z))
    (horizon : Z) : Prop :=
  r_up (redis w) = true /\
  r_data (redis w) !! ("blocked:" ++ ip)%string = None /\
  ((done = [] /\ r_data (redis w) !! ("req_count:" ++ ip)%string = None /\
                 r_data (redis w) !! ("scan_count:" ++ ip)%string = None) \/
   (exists e1 e2, horizon <= e1 /\ horizon <= e2 /\
      r_data (redis w) !! ("req_count:" ++ ip)%string
        = Some (RInt (Z.of_nat (length done)), Some e1) /\
      r_data (redis w) !! ("scan_count:" ++ ip)%string
        = Some (RSet (routes_of done), Some e2))).

(** ** The other entry points *)

(** [blockIPsMiddleware(req, res, next)]: the block check alone. *)
Definition blockIPsMiddleware (m : Monitor) (req : Request) (now : Z) : M Outcome :=
  let ip := getClientIP req in
  let! isBlocked := isIPBlocked m ip now in
  if isBlocked then
    let! blockInfo := getBlockInfo m ip now in
    ret (Denied blockInfo)
  else ret Next.

(** A sequence of requests through one [blockIPsMiddleware]. *)
Fixpoint runBlockIPs (m : Monitor) (rs : list (Request * Z)) (w : World)
  : list (Err + Outcome) * World :=
  match rs with
  | [] => ([], w)
  | (req, now) :: rest =>
      let (r, w1) := blockIPsMiddleware m req now w in
      let (outs, w2) := runBlockIPs m rest w1 in
      (r :: outs, w2)
  end.

(** The state of a freshly constructed instance: its own three empty maps
    (left undefined, and never read, on the shared backend) and no event
    emitted yet; the Redis server [r] is the one outside the process. *)
Definition new_instance_world (r : Redis) : World :=
  {| localRequestCounts := ∅; localRouteScans := ∅; localBlockedIPs := ∅;
     redis := r; emitted := []; listeners := [] |}.

(** [APIMonitor.blockIPs(options)] and [module.exports.blockIPs(options)]:
    [new APIMonitor(options)], whose [blockIPsMiddleware] is returned; the
    pair is that instance's configuration and state. *)
Definition blockIPs (options : Options) (env : Env) (r : Redis) : string + (Monitor * World) :=
  match APIMonitor_new options env with
  | inl e => inl e
  | inr mon => inr (mon, new_instance_world r)
  end.

(** The fields of the log record the [res.on('finish')] hook hands to
    [saveLog] that depend on the monitor (method, times, status code and
    user agent are copied from the request and response). *)
Record LogData := { log_ip : string; log_route : string; log_attackType : option string }.

(** The [res.on('finish')] hook of [monitorMiddleware] at time [now]: the
    record passed to [saveLog], if any. *)
Definition onFinish (m : Monitor) (ip route : string) (now : Z) : M (option LogData) :=
  let! isBlocked := isIPBlocked m ip now in
  let attackType := if isBlocked then Some "Blocked"%string else None in
  if saveRecords m || match attackType with Some _ => true | None => false end || isBlocked
  then ret (Some {| log_ip := ip; log_route := route; log_attackType := attackType |})
  else ret None.

(** Each request of [rs] arrives before [h], and before the previous one's
    arrival plus [d]. *)
Fixpoint arrive_chained (d h : Z) (rs : list (Request * Z)) : Prop :=
  match rs with
  | [] => True
  | (_, t) :: rest => t < h /\ arrive_chained d (t + d) rest
  end.

(** Two states agree on identity [ip]: the same request timestamps, route
    set and block entry for it, and the same Redis server. *)
Definition agree_at (ip : string) (w w' : World) : Prop :=
  localRequestCounts w' !! ip = localRequestCounts w !! ip /\
  localRouteScans w' !! ip = localRouteScans w !! ip /\
  localBlockedIPs w' !! ip = localBlockedIPs w !! ip /\
  redis w' = redis w.

(** ** Example inputs *)

Definition ex_env_none : Env := {| env_MONGO_URI := None; env_REDIS_URL := None |}.

(** [createMonitor()] with no options: the ephemeral monitor with the defaults. *)
Definition ex_monitor : Monitor :=
  {| maxRequests := 10; timeWindow := 60; scanThreshold := 5; saveRecords := false;
     mongoURI := None; redisURL := None |}.

(** A monitor on the shared backend. *)
Definition ex_shared_monitor : Monitor :=
  {| maxRequests := 10; timeWindow := 60; scanThreshold := 5; saveRecords := true;
     mongoURI := Some "mongodb://db/monitor"; redisURL := Some "redis://cache:6379" |}.

(** A direct request from the peer [ip] for [route]. *)
Definition ex_req (ip route : string) : Request :=
  {| hdr_x_forwarded_for := None; hdr_x_real_ip := None; conn_remoteAddress := Some ip;
     socket_remoteAddress := Some ip; express_ip := Some ip; originalUrl := route |}.

(** A fresh process: nothing tracked, nothing blocked, no events; the
    Redis server is reachable (or not) and empty. *)
Definition ex_world (up : bool) : World :=
  {| localRequestCounts := ∅; localRouteScans := ∅; localBlockedIPs := ∅;
     redis := {| r_up := up; r_data := ∅ |}; emitted := []; listeners := [] |}.

(** [1.2.3.4] blocked by hand, with reason ['manual'], until 300 s. *)
Definition ex_manual_world : World :=
  {| localRequestCounts := ∅; localRouteScans := ∅;
     localBlockedIPs := {[ "1.2.3.4" := {| expiresAt := 300 * 1000; reason := "manual" |} ]};
     redis := {| r_up := true; r_data := ∅ |}; emitted := []; listeners := [] |}.

(** [n] requests of [1.2.3.4], the [i]-th at [i] ms, for [route i]. *)
Definition ex_run (route : nat -> string) (n : nat) : list (Request * Z) :=
  map (fun i => (ex_req "1.2.3.4" (route i), Z.of_nat i)) (seq 0 n).


(** A shared-backend monitor whose window (600 s) outlasts a block (300 s). *)
Definition ex_long_window_monitor : Monitor :=
  {| maxRequests := 10; timeWindow := 600; scanThreshold := 5; saveRecords := true;
     mongoURI := Some "mongodb://db/monitor"; redisURL := Some "redis://cache:6379" |}.

(** [n] requests of [1.2.3.4] for ['/a'], one every 59 s from 0. *)
Definition ex_chain (n : nat) : list (Request * Z) :=
  map (fun i => (ex_req "1.2.3.4" "/a", Z.of_nat i * 59000)) (seq 0 n).

(** A request whose forwarded-for header names the identity ['1.2.3.4:reason']. *)
Definition ex_reason_req : Request :=
  {| hdr_x_forwarded_for := Some "1.2.3.4:reason"; hdr_x_real_ip := None;
     conn_remoteAddress := Some "10.0.0.1"; socket_remoteAddress := Some "10.0.0.1";
     express_ip := Some "10.0.0.1"; originalUrl := "/a" |}.

(** The options of [createMonitor()] with nothing given. *)
Definition ex_no_options : Options :=
  {| opt_mongoURI := None; opt_redisURL := None; opt_maxRequests := None;
     opt_timeWindow := None; opt_scanThreshold := None; opt_saveRecords := None |}.

(** A subscriber that throws on every event (a failing alert hook, say). *)
Definition ex_throwing_subscriber : AttackEvent -> option string :=
  fun _ => Some "alert hook failed"%string.

(** A fresh process whose monitor has that subscriber. *)
Definition ex_world_throwing (up : bool) : World :=
  on_attack_detected ex_throwing_subscriber (ex_world up).

(** A shared-backend process whose Redis server is down while it holds the
    block key of [1.2.3.4] until 300 s. *)
Definition ex_down_blocked_world : World :=
  {| localRequestCounts := ∅; localRouteScans := ∅; localBlockedIPs := ∅;
     redis := {| r_up := false;
                 r_data := {[ "blocked:1.2.3.4" := (RStr "1", Some (300 * 1000)) ]} |};
     emitted := []; listeners := [] |}.

(** An identity the monitor has never seen: no tracking or block state on
    the ephemeral backend; on the shared backend a reachable server holding
    no counter, route set or block key for it. *)
Definition fresh_identity (m : Monitor) (w : World) (ip : string) : Prop :=
  if saveRecords m then
    r_up (redis w) = true /\
    r_data (redis w) !! ("blocked:" ++ ip)%string = None /\
    r_data (redis w) !! ("req_count:" ++ ip)%string = None /\
    r_data (redis w) !! ("scan_count:" ++ ip)%string = None
  else
    localRequestCounts w !! ip = None /\ localRouteScans w !! ip = None /\
    localBlockedIPs w !! ip = None.

(** * Theorems *)

(** ** Classifier *)

(** C2: the classifier answers rate abuse exactly when requestCount >
    maxRequests; scan abuse exactly when that fails and distinctRouteCount >
    scanThreshold; no verdict otherwise (both comparisons strict). *)
Theorem attackTypeOf_precedence (m : Monitor) (requestCount scanCount : Z) :
  (attackTypeOf m (Some requestCount) (Some scanCount) = Some DDOS
     <-> maxRequests m < requestCount) /\
  (attackTypeOf m (Some requestCount) (Some scanCount) = Some PATH_SCANNING
     <-> requestCount <= maxRequests m /\ scanThreshold m < scanCount) /\
  (attackTypeOf m (Some requestCount) (Some scanCount) = None
     <-> requestCount <= maxRequests m /\ scanCount <= scanThreshold m) /\
  (forall m' : Monitor, maxRequests m' = maxRequests m -> scanThreshold m' = scanThreshold m ->
     attackTypeOf m' (Some requestCount) (Some scanCount)
     = attackTypeOf m (Some requestCount) (Some scanCount)).
Proof.
  unfold attackTypeOf, num_gt.
  destruct (Z.ltb_spec (maxRequests m) requestCount);
  destruct (Z.ltb_spec (scanThreshold m) scanCount);
  repeat split; intros; try lia; try discriminate; try reflexivity;
  try (match goal with H : _ /\ _ |- _ => destruct H; lia end).
  all: match goal with H1 : maxRequests _ = _, H2 : scanThreshold _ = _ |- _ =>
         rewrite H1, H2 end.
  all: repeat match goal with |- context [Z.ltb ?a ?b] => destruct (Z.ltb_spec a b) end;
       (reflexivity || lia).
Qed.

(** ** Construction *)

(** C8: with [saveRecords] true and [mongoURI] or [redisURL] missing from
    both the options and the environment, construction throws (it never
    yields a monitor, ephemeral or not); with [saveRecords] not set,
    construction succeeds in ephemeral mode whatever backend parameters
    are given. *)
Theorem APIMonitor_new_backend_params (options : Options) (env : Env) :
  (opt_saveRecords options = Some true ->
   (opt_mongoURI options = None /\ env_MONGO_URI env = None) \/
   (opt_redisURL options = None /\ env_REDIS_URL env = None) ->
   APIMonitor_new options env
   = inl "mongoURI and redisURL are required when saveRecords is true"%string) /\
  (opt_saveRecords options <> Some true ->
   exists mon, APIMonitor_new options env = inr mon /\ saveRecords mon = false) /\
  (forall mon, opt_saveRecords options = Some true ->
   APIMonitor_new options env = inr mon -> saveRecords mon = true).
Proof.
  unfold APIMonitor_new.
  split; [| split].
  - intros Hs Hmiss. rewrite Hs.
    destruct Hmiss as [[H1 H2] | [H1 H2]]; rewrite H1, H2; simpl;
      [reflexivity | rewrite orb_true_r; reflexivity].
  - intros Hs.
    destruct (opt_saveRecords options) as [[|]|]; [congruence | |]; eauto.
  - intros mon Hs. rewrite Hs.
    destruct (_ || _); intros H; inversion H; reflexivity.
Qed.

(** C10: a falsy (zero or missing) [maxRequests], [timeWindow] or
    [scanThreshold] is replaced by 10, 60 and 5; so no constructed monitor
    has a zero threshold or a zero-length window. *)
Theorem APIMonitor_new_defaults (options : Options) (env : Env) (mon : Monitor) :
  APIMonitor_new options env = inr mon ->
  (opt_maxRequests options = None \/ opt_maxRequests options = Some 0 -> maxRequests mon = 10) /\
  (opt_timeWindow options = None \/ opt_timeWindow options = Some 0 -> timeWindow mon = 60) /\
  (opt_scanThreshold options = None \/ opt_scanThreshold options = Some 0 ->
     scanThreshold mon = 5) /\
  (forall n, opt_maxRequests options = Some n -> n <> 0 -> maxRequests mon = n) /\
  (forall n, opt_timeWindow options = Some n -> n <> 0 -> timeWindow mon = n) /\
  (forall n, opt_scanThreshold options = Some n -> n <> 0 -> scanThreshold mon = n) /\
  maxRequests mon <> 0 /\ timeWindow mon <> 0 /\ scanThreshold mon <> 0.
Proof.
  intros Hnew.
  assert (Hf : maxRequests mon = num_or (opt_maxRequests options) 10 /\
               timeWindow mon = num_or (opt_timeWindow options) 60 /\
               scanThreshold mon = num_or (opt_scanThreshold options) 5).
  { unfold APIMonitor_new in Hnew.
    destruct (match opt_saveRecords options with Some true => true | _ => false end);
      [destruct (_ || _) |]; inversion Hnew; subst; simpl; auto. }
  destruct Hf as (H1 & H2 & H3). rewrite H1, H2, H3. unfold num_or.
  destruct (opt_maxRequests options) as [a|], (opt_timeWindow options) as [b|],
           (opt_scanThreshold options) as [c|];
  repeat split; intros;
  repeat match goal with
         | H : _ \/ _ |- _ => destruct H
         | H : Some _ = Some _ |- _ => inversion H; subst; clear H
         | H : None = Some _ |- _ => discriminate H
         | H : Some _ = None |- _ => discriminate H
         end;
  repeat match goal with |- context [Z.eqb ?x 0] => destruct (Z.eqb_spec x 0) end;
  simpl; try reflexivity; try lia.
Qed.

(** ** Blocklist *)

Lemma set_rdata_same (w : World) : set_rdata (r_data (redis w)) w = w.
Proof. destruct w as [? ? ? [? ?] ?]. reflexivity. Qed.

(** On the ephemeral backend, [isIPBlocked] answers true exactly when an
    entry exists with [now < expiresAt]; a found-but-expired entry makes it
    answer false and is deleted, so a later query (at any time, with no new
    block in between) answers false as well. *)
Lemma isIPBlocked_local (m : Monitor) (ip : string) (now : Z) (w : World) :
  saveRecords m = false ->
  (fst (isIPBlocked m ip now w) = inr true
     <-> exists bi, localBlockedIPs w !! ip = Some bi /\ now < expiresAt bi) /\
  (fst (isIPBlocked m ip now w) = inr false
     <-> ~ exists bi, localBlockedIPs w !! ip = Some bi /\ now < expiresAt bi) /\
  (forall bi, localBlockedIPs w !! ip = Some bi -> expiresAt bi <= now ->
     localBlockedIPs (snd (isIPBlocked m ip now w)) !! ip = None /\
     forall later, fst (isIPBlocked m ip later (snd (isIPBlocked m ip now w))) = inr false).
Proof.
  intros Hs. unfold isIPBlocked. rewrite Hs.
  destruct (localBlockedIPs w !! ip) as [b|] eqn:Hb.
  - destruct (Z.leb_spec (expiresAt b) now); simpl.
    + split; [| split].
      * split; [discriminate | intros (bi & Hbi & Hlt); inversion Hbi; subst; lia].
      * split; [intros _ (bi & Hbi & Hlt); inversion Hbi; subst; lia | reflexivity].
      * intros bi _ _. rewrite lookup_delete_eq. split; [reflexivity | intros later; reflexivity].
    + split; [| split].
      * split; [intros _; eauto | reflexivity].
      * split; [discriminate | intros Hn; exfalso; eauto].
      * intros bi Hbi Hle. inversion Hbi; subst. lia.
  - simpl. split; [| split].
    + split; [discriminate | intros (bi & Hbi & _); discriminate].
    + split; [intros _ (bi & Hbi & _); discriminate | reflexivity].
    + intros bi Hbi. discriminate.
Qed.

Lemma isIPBlocked_shared_eq (m : Monitor) (ip : string) (now : Z) (w : World) :
  saveRecords m = true ->
  isIPBlocked m ip now w
  = (inr (r_up (redis w) &&
          match live (r_data (redis w)) ("blocked:" ++ ip) now with
          | Some (RInt _, _) => true
          | Some (RStr s, _) => negb (String.eqb s "")
          | _ => false
          end), w).
Proof.
  intros Hs. unfold isIPBlocked, catch, bind, ret, r_get, rcmd. rewrite Hs.
  destruct (r_up (redis w)); [| reflexivity].
  destruct (live (r_data (redis w)) ("blocked:" ++ ip) now) as [[[?|?|?] ?]|]; simpl;
    rewrite ?set_rdata_same; reflexivity.
Qed.

(** C4 (as the code behaves), on both backends.  Ephemeral backend:
    [isIPBlocked] answers true exactly when an entry exists with
    [now < expiresAt]; a found-but-expired entry makes it answer false and
    is deleted, so a later query answers false as well.  Shared backend: it
    never rejects and changes nothing, and answers true exactly when the
    Redis server is reachable and the key [blocked:ip] is unexpired and
    holds a number or a non-empty string (the code only writes ['1']
    there); with the server unreachable it answers false whatever the key
    holds. *)
Theorem isIPBlocked_backends (m : Monitor) (ip : string) (now : Z) (w : World) :
  (saveRecords m = false ->
   (fst (isIPBlocked m ip now w) = inr true
      <-> exists bi, localBlockedIPs w !! ip = Some bi /\ now < expiresAt bi) /\
   (fst (isIPBlocked m ip now w) = inr false
      <-> ~ exists bi, localBlockedIPs w !! ip = Some bi /\ now < expiresAt bi) /\
   (forall bi, localBlockedIPs w !! ip = Some bi -> expiresAt bi <= now ->
      localBlockedIPs (snd (isIPBlocked m ip now w)) !! ip = None /\
      forall later, fst (isIPBlocked m ip later (snd (isIPBlocked m ip now w))) = inr false)) /\
  (saveRecords m = true ->
   snd (isIPBlocked m ip now w) = w /\
   (fst (isIPBlocked m ip now w) = inr true \/ fst (isIPBlocked m ip now w) = inr false) /\
   (fst (isIPBlocked m ip now w) = inr true
      <-> r_up (redis w) = true /\
          exists v e, live (r_data (redis w)) ("blocked:" ++ ip) now = Some (v, e) /\
            match v with
            | RInt _ => True
            | RStr s => s <> ""%string
            | RSet _ => False
            end) /\
   (r_up (redis w) = false -> fst (isIPBlocked m ip now w) = inr false)).
Proof.
  split; [apply isIPBlocked_local |].
  intros Hs. rewrite (isIPBlocked_shared_eq m ip now w Hs). cbn [fst snd].
  split; [reflexivity |].
  destruct (r_up (redis w)); cbn [andb].
  2: { split; [right; reflexivity |]. split; [| intros _; reflexivity].
       split; [intros Hd; discriminate Hd | intros [Hd _]; discriminate Hd]. }
  assert (Hall : forall b : bool, (inr b : Err + bool) = inr true \/ (inr b : Err + bool) = inr false)
    by (intros []; auto).
  split; [apply Hall |]. split; [| intros Hd; discriminate Hd].
  destruct (live (r_data (redis w)) ("blocked:" ++ ip) now) as [[v e]|].
  2: { split; [intros Hd; discriminate Hd | intros (_ & v & e & Hd & _); discriminate Hd]. }
  destruct v as [n|str|set].
  - split; [intros _; split; [reflexivity | exists (RInt n), e; split; [reflexivity | exact I]]
           | intros _; reflexivity].
  - destruct (String.eqb_spec str "") as [-> | Hne]; cbn [negb].
    + split; [intros Hd; discriminate Hd |].
      intros (_ & v & e' & Hv & Hm). injection Hv as <- _. exact (False_ind _ (Hm eq_refl)).
    + split; [intros _; split; [reflexivity | exists (RStr str), e; split; [reflexivity | exact Hne]]
             | intros _; reflexivity].
  - split; [intros Hd; discriminate Hd |].
    intros (_ & v & e' & Hv & Hm). injection Hv as <- _. destruct Hm.
Qed.

Lemma isIPBlocked_true_same (m : Monitor) (ip : string) (now : Z) (w : World) :
  fst (isIPBlocked m ip now w) = inr true -> isIPBlocked m ip now w = (inr true, w).
Proof.
  unfold isIPBlocked, catch, bind, ret, r_get, rcmd.
  destruct (saveRecords m).
  - destruct (r_up (redis w)); [| discriminate].
    destruct (live _ _ _) as [[[?|?|?] ?]|]; simpl; try discriminate;
      intros H; inversion H; rewrite set_rdata_same; reflexivity.
  - destruct (localBlockedIPs w !! ip) as [b|]; [| discriminate].
    destruct (Z.leb _ _); simpl; [discriminate | reflexivity].
Qed.

Lemma getBlockInfo_same (m : Monitor) (ip : string) (now : Z) (w : World) :
  snd (getBlockInfo m ip now w) = w.
Proof.
  unfold getBlockInfo, bind, ret, r_get, r_ttl, rcmd.
  destruct (saveRecords m).
  - destruct (r_up (redis w)) eqn:Hup; [| reflexivity].
    destruct (live _ ("blocked:" ++ ip) now) as [[? [?|]]|]; simpl;
      rewrite !set_rdata_same, Hup;
      destruct (live _ ("blocked:" ++ ip ++ ":reason") now) as [[[?|?|?] ?]|]; simpl;
      rewrite ?set_rdata_same; reflexivity.
  - destruct (localBlockedIPs w !! ip); reflexivity.
Qed.

Lemma monitorMiddleware_blocked (m : Monitor) (req : Request) (now : Z) (w : World) :
  fst (isIPBlocked m (getClientIP req) now w) = inr true ->
  monitorMiddleware m req now w
  = match getBlockInfo m (getClientIP req) now w with
    | (inl e, w') => (inl e, w')
    | (inr info, w') => (inr (Denied info), w')
    end.
Proof.
  intros Hb. unfold monitorMiddleware, bind at 1.
  rewrite (isIPBlocked_true_same _ _ _ _ Hb). unfold bind, ret.
  destruct (getBlockInfo m (getClientIP req) now w) as [[?|?] ?]; reflexivity.
Qed.

(** C3: a request from a currently blocked identity changes nothing: the
    world (request timestamps, route sets, block entries, Redis keys,
    emitted events) is the same after it; on the ephemeral backend, and on
    the shared one when the reason key holds no set, the answer is the 403
    denial; and a run of requests that all arrive while the identity is
    blocked leaves the world as it was, so it creates no tracking state. *)
Theorem blocked_request_untouched (m : Monitor) (req : Request) (now : Z) (w : World) :
  fst (isIPBlocked m (getClientIP req) now w) = inr true ->
  snd (monitorMiddleware m req now w) = w /\
  ((saveRecords m = false \/
    forall s e, r_data (redis w) !! ("blocked:" ++ getClientIP req ++ ":reason")%string
                <> Some (RSet s, e)) ->
   exists info, fst (monitorMiddleware m req now w) = inr (Denied info)) /\
  (forall rs : list (Request * Z),
     Forall (fun p => getClientIP (fst p) = getClientIP req /\
                      fst (isIPBlocked m (getClientIP req) (snd p) w) = inr true) rs ->
     snd (runAll m rs w) = w).
Proof.
  intros Hb. split; [| split].
  - rewrite (monitorMiddleware_blocked _ _ _ _ Hb).
    pose proof (getBlockInfo_same m (getClientIP req) now w) as Hs.
    destruct (getBlockInfo m (getClientIP req) now w) as [[?|?] ?]; exact Hs.
  - intros Hcase. rewrite (monitorMiddleware_blocked _ _ _ _ Hb).
    unfold getBlockInfo. destruct (saveRecords m) eqn:Hsr.
    + destruct Hcase as [Hf | Hnoset]; [discriminate |].
      unfold isIPBlocked in Hb. rewrite Hsr in Hb.
      unfold catch, bind, ret, r_get, r_ttl, rcmd in *.
      destruct (r_up (redis w)) eqn:Hup; [| discriminate].
      destruct (live _ ("blocked:" ++ getClientIP req) now) as [[? [?|]]|]; simpl;
        rewrite !set_rdata_same, Hup;
        destruct (live (r_data (redis w)) ("blocked:" ++ getClientIP req ++ ":reason") now)
          as [[[?|?|s] e]|] eqn:Hl; simpl; eauto;
        exfalso; unfold live in Hl;
        destruct (r_data (redis w) !! _) as [[v [ex|]]|] eqn:Hd; try discriminate;
        try (destruct (Z.ltb now ex); [|discriminate]); inversion Hl; subst;
        eapply Hnoset; first [exact Hd | reflexivity].
    + unfold isIPBlocked in Hb. rewrite Hsr in Hb.
      destruct (localBlockedIPs w !! getClientIP req) as [b|]; [eauto | discriminate].
  - induction rs as [| [r t] rs IH]; intros Hall; [reflexivity |].
    inversion Hall as [| ? ? [Hip Hbt] Hrest]; subst. simpl in Hip, Hbt.
    simpl. rewrite <- Hip in Hbt.
    rewrite (monitorMiddleware_blocked _ _ _ _ Hbt).
    pose proof (getBlockInfo_same m (getClientIP r) t w) as Hs.
    destruct (getBlockInfo m (getClientIP r) t w) as [[?|?] w1]; simpl in Hs; subst w1;
      destruct (runAll m rs w) eqn:Hr; simpl in IH |- *; apply IH; exact Hrest.
Qed.

(** ** Failure of the shared backend *)

(** C5 (as the code behaves): with the Redis server unreachable, the block
    check fails soft ([isIPBlocked] catches and answers false) but the
    counting path awaits [redis.multi()...exec()] without a [try], so the
    middleware's promise rejects with the I/O error and [next()] is never
    called; no verdict is produced and nothing else changes. *)
Theorem shared_backend_down_rejects (m : Monitor) (req : Request) (now : Z) (w : World) :
  saveRecords m = true -> r_up (redis w) = false ->
  isIPBlocked m (getClientIP req) now w = (inr false, w) /\
  monitorMiddleware m req now w = (inl "Connection is closed."%string, w).
Proof.
  intros Hs Hup.
  assert (Hb : isIPBlocked m (getClientIP req) now w = (inr false, w)).
  { unfold isIPBlocked, catch, bind, r_get, rcmd. rewrite Hs, Hup. reflexivity. }
  split; [exact Hb |].
  unfold monitorMiddleware, bind at 1. rewrite Hb. rewrite Hs.
  unfold bind, multi. rewrite Hup. reflexivity.
Qed.

(** ** Tracking store *)

(** C6 (as the code behaves): the ephemeral tracking update prunes the
    request timestamps to the trailing window but never prunes the route
    set: the new set is the old one plus the route, whatever the age of the
    old routes, and the reported distinct-route count is its size. *)
Theorem updateLocalTracking_routes (m : Monitor) (ip route : string) (now : Z) (w : World) :
  let oldRoutes := default ∅ (localRouteScans w !! ip) in
  let oldTimes := default [] (localRequestCounts w !! ip) in
  let requests := List.filter (fun time => Z.ltb (now - timeWindow m * 1000) time) oldTimes
                  ++ [now] in
  fst (updateLocalTracking m ip route now w)
    = inr (Z.of_nat (length requests), Z.of_nat (size ({[route]} ∪ oldRoutes))) /\
  localRouteScans (snd (updateLocalTracking m ip route now w)) !! ip
    = Some ({[route]} ∪ oldRoutes) /\
  localRequestCounts (snd (updateLocalTracking m ip route now w)) !! ip = Some requests /\
  (forall r, r ∈ oldRoutes ->
     exists s, localRouteScans (snd (updateLocalTracking m ip route now w)) !! ip = Some s
               /\ r ∈ s).
Proof.
  simpl. unfold updateLocalTracking. simpl.
  destruct (localRouteScans w !! ip) as [s|] eqn:Hs;
  destruct (localRequestCounts w !! ip) as [l|] eqn:Hl; simpl;
  rewrite !lookup_insert_eq;
  (split; [reflexivity | split; [reflexivity | split; [reflexivity |]]]);
  intros r Hr; eexists; (split; [reflexivity | set_solver]).
Qed.

(** ** Verdicts *)

Lemma emit_quiet (ev : AttackEvent) (w : World) :
  quiet_subscribers w -> emit ev w = (inr tt, add_event ev w).
Proof. intros Hq. unfold emit. rewrite Hq. reflexivity. Qed.

Lemma emit_throws (ev : AttackEvent) (w : World) (err : string) :
  first_throw (listeners w) ev = Some err -> emit ev w = (inl err, add_event ev w).
Proof. intros H. unfold emit. rewrite H. reflexivity. Qed.

(** With no subscriber throwing, a verdict [t] makes [handleAttackDetection]
    emit one event [(ip, t, now)] and install one block with reason [t] and
    expiry [now + 300 s]; on the ephemeral backend it also deletes the
    identity's timestamps and route set. *)
Lemma handleAttackDetection_verdict (m : Monitor) (ip : string) (requestCount scanCount : Num)
    (now : Z) (w : World) (t : string) :
  attackTypeOf m requestCount scanCount = Some t -> quiet_subscribers w ->
  (saveRecords m = false \/ r_up (redis w) = true) ->
  let res := handleAttackDetection m ip requestCount scanCount now w in
  fst res = inr tt /\
  emitted (snd res) = emitted w ++ [{| ev_ip := ip; ev_type := t; ev_timestamp := now |}] /\
  (saveRecords m = false ->
     localBlockedIPs (snd res)
       = <[ip := {| expiresAt := now + 300 * 1000; reason := t |}]> (localBlockedIPs w) /\
     localRequestCounts (snd res) = delete ip (localRequestCounts w) /\
     localRouteScans (snd res) = delete ip (localRouteScans w) /\
     redis (snd res) = redis w) /\
  (saveRecords m = true ->
     r_data (redis (snd res))
       = <[("blocked:" ++ ip ++ ":reason")%string := (RStr t, Some (now + 300 * 1000))]>
           (<[("blocked:" ++ ip)%string := (RStr "1", Some (now + 300 * 1000))]>
              (r_data (redis w))) /\
     localBlockedIPs (snd res) = localBlockedIPs w /\
     localRequestCounts (snd res) = localRequestCounts w /\
     localRouteScans (snd res) = localRouteScans w).
Proof.
  intros Ht Hq Hb. cbv zeta.
  set (ev := {| ev_ip := ip; ev_type := t; ev_timestamp := now |}).
  destruct (saveRecords m) eqn:Hs.
  - destruct Hb as [Hb | Hup]; [discriminate |].
    assert (Hh : handleAttackDetection m ip requestCount scanCount now w
                 = (inr tt, set_rdata
                      (<[("blocked:" ++ ip ++ ":reason")%string := (RStr t, Some (now + 300 * 1000))]>
                        (<[("blocked:" ++ ip)%string := (RStr "1", Some (now + 300 * 1000))]>
                          (r_data (redis w)))) (add_event ev w))).
    { unfold handleAttackDetection. rewrite Ht. unfold bind.
      rewrite (emit_quiet _ _ Hq). rewrite Hs.
      unfold multi, r_set_ex, rcmd. do 3 (simpl; rewrite ?Hup). reflexivity. }
    rewrite Hh. simpl. repeat split; intros; try discriminate; reflexivity.
  - assert (Hh : handleAttackDetection m ip requestCount scanCount now w
                 = (inr tt, set_scans (delete ip (localRouteScans w))
                      (set_counts (delete ip (localRequestCounts w))
                        (set_blocked (<[ip := {| expiresAt := now + 300 * 1000; reason := t |}]>
                                        (localBlockedIPs w)) (add_event ev w))))).
    { unfold handleAttackDetection. rewrite Ht. unfold bind.
      rewrite (emit_quiet _ _ Hq). rewrite Hs. reflexivity. }
    rewrite Hh. simpl. repeat split; intros; try discriminate; reflexivity.
Qed.

(** C7 (as the code behaves): [this.emit] calls the subscribers
    synchronously and [handleAttackDetection] has no [try] around it.  So
    when a subscriber throws on the verdict's event, the event has been
    emitted but the method stops there: no block is installed (neither the
    Redis keys nor the local entry), the identity's tracking state is not
    deleted, and the returned promise rejects with the subscriber's
    error.  The state differs from the one before only by the emitted
    event. *)
Theorem handleAttackDetection_subscriber_throws (m : Monitor) (ip : string) (rc sc : Num)
    (now : Z) (w : World) (t err : string) :
  attackTypeOf m rc sc = Some t ->
  first_throw (listeners w) {| ev_ip := ip; ev_type := t; ev_timestamp := now |} = Some err ->
  handleAttackDetection m ip rc sc now w
  = (inl err, add_event {| ev_ip := ip; ev_type := t; ev_timestamp := now |} w).
Proof.
  intros Ht Hthrow. unfold handleAttackDetection. rewrite Ht.
  unfold bind. rewrite (emit_throws _ _ _ Hthrow). reflexivity.
Qed.

(** ** Identity resolution *)

Lemma str_or_nonempty (x y : option string) :
  str_or x y = match header_nonempty x with Some s => Some s | None => y end.
Proof. destruct x as [s|]; simpl; [destruct (String.eqb s "") |]; reflexivity. Qed.

(** C9 (as the code behaves): [getClientIP] is the spec's precedence chain
    (forwarded-for first value trimmed, real-IP header, connection and
    socket peer address, Express [req.ip], then ["0.0.0.0"]) followed by the
    loopback and [::ffff:] normalisation, where a header counts as present
    only when its value is a non-empty string. *)
Theorem getClientIP_precedence (req : Request) :
  getClientIP req = resolveIdentity_spec header_nonempty req.
Proof.
  unfold getClientIP, resolveIdentity_spec, canonicalIP_spec, startsWith, substring_from.
  rewrite !str_or_nonempty. simpl.
  destruct (header_nonempty (hdr_x_forwarded_for req)); [reflexivity |].
  destruct (header_nonempty (hdr_x_real_ip req)); [reflexivity |].
  destruct (header_nonempty (conn_remoteAddress req)); [reflexivity |].
  destruct (header_nonempty (socket_remoteAddress req)); [reflexivity |].
  destruct (header_nonempty (express_ip req)); reflexivity.
Qed.

(** ** The engine never changes the subscribers *)

Lemma keeps_ret {A} (a : A) : keeps_listeners (ret a).
Proof. intros w. reflexivity. Qed.

Lemma keeps_bind {A B} (c : M A) (k : A -> M B) :
  keeps_listeners c -> (forall a, keeps_listeners (k a)) -> keeps_listeners (bind c k).
Proof.
  intros Hc Hk w. unfold bind. specialize (Hc w).
  destruct (c w) as [[e|a] w']; simpl in *; [exact Hc | rewrite Hk; exact Hc].
Qed.

Lemma keeps_rcmd {A} (f : gmap string (RVal * option Z) -> Err + (A * gmap string (RVal * option Z))) :
  keeps_listeners (rcmd f).
Proof.
  intros w. unfold rcmd. destruct (r_up (redis w)); [destruct (f _) as [?|[? ?]] |]; reflexivity.
Qed.

Lemma keeps_catch {A} (c : M A) (h : A) : keeps_listeners c -> keeps_listeners (catch c h).
Proof. intros Hc w. unfold catch. specialize (Hc w). destruct (c w) as [[?|?] ?]; exact Hc. Qed.

Lemma keeps_emit (ev : AttackEvent) : keeps_listeners (emit ev).
Proof. intros w. unfold emit. destruct (first_throw _ _); reflexivity. Qed.

Lemma keeps_modify (f : World -> World) :
  (forall w, listeners (f w) = listeners w) -> keeps_listeners (modify f).
Proof. intros Hf w. apply Hf. Qed.

Lemma keeps_queued {A} (c : M A) : keeps_listeners c -> keeps_listeners (queued c).
Proof. intros Hc w. apply Hc. Qed.

Lemma keeps_multi (cmds : list (M unit)) :
  Forall keeps_listeners cmds -> keeps_listeners (multi cmds).
Proof.
  intros Hall w. unfold multi. destruct (r_up (redis w)); [simpl | reflexivity].
  revert w. induction Hall as [| c rest Hc _ IH]; intros w; [reflexivity |].
  simpl. rewrite IH. apply Hc.
Qed.

Ltac keeps_tac :=
  repeat match goal with
  | |- keeps_listeners (bind _ _) => apply keeps_bind; [| intros ]
  | |- keeps_listeners (if ?b then _ else _) => destruct b
  | |- keeps_listeners (match ?x with _ => _ end) => destruct x
  | |- keeps_listeners (ret _) => apply keeps_ret
  | |- keeps_listeners (rcmd _) => apply keeps_rcmd
  | |- keeps_listeners (multi _) => apply keeps_multi; repeat constructor
  | |- keeps_listeners (queued _) => apply keeps_queued
  | |- keeps_listeners (catch _ _) => apply keeps_catch
  | |- keeps_listeners (emit _) => apply keeps_emit
  | |- keeps_listeners (modify _) => apply keeps_modify; intros; reflexivity
  end.

Lemma keeps_isIPBlocked (m : Monitor) (ip : string) (now : Z) :
  keeps_listeners (isIPBlocked m ip now).
Proof.
  unfold isIPBlocked, r_get. destruct (saveRecords m); [keeps_tac |].
  intros w. destruct (localBlockedIPs w !! ip); [destruct (Z.leb _ _) |]; reflexivity.
Qed.

Lemma keeps_getBlockInfo (m : Monitor) (ip : string) (now : Z) :
  keeps_listeners (getBlockInfo m ip now).
Proof.
  unfold getBlockInfo, r_get, r_ttl. destruct (saveRecords m); [keeps_tac |].
  intros w. destruct (localBlockedIPs w !! ip); reflexivity.
Qed.

Lemma keeps_updateLocalTracking (m : Monitor) (ip url : string) (now : Z) :
  keeps_listeners (updateLocalTracking m ip url now).
Proof. intros w. reflexivity. Qed.

Lemma keeps_handleAttackDetection (m : Monitor) (ip : string) (rc sc : Num) (now : Z) :
  keeps_listeners (handleAttackDetection m ip rc sc now).
Proof. unfold handleAttackDetection, r_set_ex. keeps_tac. Qed.

Lemma keeps_monitorMiddleware (m : Monitor) (req : Request) (now : Z) :
  keeps_listeners (monitorMiddleware m req now).
Proof.
  unfold monitorMiddleware. cbv zeta. apply keeps_bind; [apply keeps_isIPBlocked | intros b].
  destruct b; (apply keeps_bind; [| intros; apply keeps_ret]);
    [apply keeps_getBlockInfo |].
  destruct (saveRecords m).
  - unfold r_incr, r_expire, r_sadd, r_get, r_scard.
    repeat (apply keeps_bind; [| intros]);
      first [apply keeps_handleAttackDetection | keeps_tac].
  - apply keeps_bind; [| intros; apply keeps_handleAttackDetection].
    intros w. reflexivity.
Qed.

Lemma quiet_runAll (m : Monitor) (rs : list (Request * Z)) (w : World) :
  quiet_subscribers w -> quiet_subscribers (snd (runAll m rs w)).
Proof.
  unfold quiet_subscribers. revert w. induction rs as [| [req now] rest IH]; intros w Hq;
    [exact Hq |].
  simpl. pose proof (keeps_monitorMiddleware m req now w) as Hk.
  destruct (monitorMiddleware m req now w) as [r w1]. simpl in Hk.
  specialize (IH w1). destruct (runAll m rest w1) as [outs w2]. simpl in *.
  apply IH. rewrite Hk. exact Hq.
Qed.

(** ** A run of requests from one identity (ephemeral backend) *)


Lemma routes_of_app (a b : list (Request * Z)) :
  routes_of (a ++ b) = routes_of a ∪ routes_of b.
Proof. unfold routes_of. rewrite map_app. apply list_to_set_app_L. Qed.

Lemma routes_of_one (req : Request) (now : Z) :
  routes_of [(req, now)] = {[originalUrl req]}.
Proof. unfold routes_of. simpl. set_solver. Qed.






(** ** Redis commands on a reachable server *)

Section RedisUp.
Variable w : World.
Hypothesis Hup : r_up (redis w) = true.

Lemma bind_inr {A B} (c : M A) (k : A -> M B) (a : A) (w0 w1 : World) :
  c w0 = (inr a, w1) -> bind c k w0 = k a w1.
Proof. intros H. unfold bind. rewrite H. reflexivity. Qed.

Lemma r_incr_none (k : string) (now : Z) :
  live (r_data (redis w)) k now = None -> r_incr k now w = (inr 1, set_rdata (<[k := (RInt 1, None)]> (r_data (redis w))) w).
Proof. intros H. unfold r_incr, rcmd. rewrite Hup.  rewrite H. reflexivity. Qed.

Lemma r_incr_some (k : string) (now n : Z) (e : option Z) :
  live (r_data (redis w)) k now = Some (RInt n, e) ->
  r_incr k now w = (inr (n + 1), set_rdata (<[k := (RInt (n + 1), e)]> (r_data (redis w))) w).
Proof. intros H. unfold r_incr, rcmd. rewrite Hup.  rewrite H. reflexivity. Qed.

Lemma r_expire_some (k : string) (secs now : Z) (v : RVal) (e : option Z) :
  live (r_data (redis w)) k now = Some (v, e) ->
  r_expire k secs now w = (inr 1, set_rdata (<[k := (v, Some (now + secs * 1000))]> (r_data (redis w))) w).
Proof. intros H. unfold r_expire, rcmd. rewrite Hup.  rewrite H. reflexivity. Qed.

Lemma r_sadd_none (k member : string) (now : Z) :
  live (r_data (redis w)) k now = None ->
  r_sadd k member now w = (inr 1, set_rdata (<[k := (RSet {[member]}, None)]> (r_data (redis w))) w).
Proof. intros H. unfold r_sadd, rcmd. rewrite Hup.  rewrite H. reflexivity. Qed.

Lemma r_sadd_some (k member : string) (now : Z) (s : gset string) (e : option Z) :
  live (r_data (redis w)) k now = Some (RSet s, e) -> exists n,
  r_sadd k member now w = (inr n, set_rdata (<[k := (RSet ({[member]} ∪ s), e)]> (r_data (redis w))) w).
Proof. intros H. unfold r_sadd, rcmd. rewrite Hup.  rewrite H. eexists. reflexivity. Qed.

Lemma r_get_int (k : string) (now n : Z) (e : option Z) :
  live (r_data (redis w)) k now = Some (RInt n, e) -> r_get k now w = (inr (RNum n), w).
Proof.
  intros H. unfold r_get, rcmd. rewrite Hup.  rewrite H.
  rewrite set_rdata_same. reflexivity.
Qed.

Lemma r_get_str (k : string) (now : Z) (s : string) (e : option Z) :
  live (r_data (redis w)) k now = Some (RStr s, e) -> r_get k now w = (inr (RText s), w).
Proof.
  intros H. unfold r_get, rcmd. rewrite Hup.  rewrite H.
  rewrite set_rdata_same. reflexivity.
Qed.

Lemma r_get_none (k : string) (now : Z) :
  live (r_data (redis w)) k now = None -> r_get k now w = (inr RNull, w).
Proof.
  intros H. unfold r_get, rcmd. rewrite Hup.  rewrite H.
  rewrite set_rdata_same. reflexivity.
Qed.

Lemma r_scard_some (k : string) (now : Z) (s : gset string) (e : option Z) :
  live (r_data (redis w)) k now = Some (RSet s, e) -> r_scard k now w = (inr (Z.of_nat (size s)), w).
Proof.
  intros H. unfold r_scard, rcmd. rewrite Hup.  rewrite H.
  rewrite set_rdata_same. reflexivity.
Qed.

Lemma r_set_ex_ok (k v : string) (secs now : Z) :
  r_set_ex k v secs now w
  = (inr tt, set_rdata (<[k := (RStr v, Some (now + secs * 1000))]> (r_data (redis w))) w).
Proof. unfold r_set_ex, rcmd. rewrite Hup. reflexivity. Qed.

Lemma r_ttl_some (k : string) (now e : Z) (v : RVal) :
  live (r_data (redis w)) k now = Some (v, Some e) -> r_ttl k now w = (inr ((e - now + 500) / 1000), w).
Proof.
  intros H. unfold r_ttl, rcmd. rewrite Hup.  rewrite H.
  rewrite set_rdata_same. reflexivity.
Qed.

End RedisUp.

Lemma set_rdata_redis (dd : gmap string (RVal * option Z)) (w : World) :
  r_up (redis (set_rdata dd w)) = r_up (redis w) /\ r_data (redis (set_rdata dd w)) = dd.
Proof. split; reflexivity. Qed.

Lemma r_data_set_rdata (dd : gmap string (RVal * option Z)) (w : World) :
  r_data (redis (set_rdata dd w)) = dd.
Proof. reflexivity. Qed.

Lemma r_up_set_rdata (dd : gmap string (RVal * option Z)) (w : World) :
  r_up (redis w) = true -> r_up (redis (set_rdata dd w)) = true.
Proof. exact id. Qed.

Lemma set_rdata_twice (d1 d2 : gmap string (RVal * option Z)) (w : World) :
  set_rdata d2 (set_rdata d1 w) = set_rdata d2 w.
Proof. reflexivity. Qed.

Lemma live_absent (dd : gmap string (RVal * option Z)) (k : string) (now : Z) :
  dd !! k = None -> live dd k now = None.
Proof. intros H. unfold live. rewrite H. reflexivity. Qed.

Lemma live_insert_ne (dd : gmap string (RVal * option Z)) (k k' : string)
    (x : RVal * option Z) (now : Z) :
  k <> k' -> live (<[k := x]> dd) k' now = live dd k' now.
Proof. intros H. unfold live. rewrite lookup_insert_ne by exact H. reflexivity. Qed.

Lemma live_insert_eq_some (dd : gmap string (RVal * option Z)) (k : string)
    (v : RVal) (e now : Z) :
  now < e -> live (<[k := (v, Some e)]> dd) k now = Some (v, Some e).
Proof.
  intros H. unfold live. rewrite lookup_insert_eq.
  destruct (Z.ltb_spec now e); [reflexivity | lia].
Qed.

Lemma live_insert_eq_none (dd : gmap string (RVal * option Z)) (k : string) (v : RVal) (now : Z) :
  live (<[k := (v, None)]> dd) k now = Some (v, None).
Proof. unfold live. rewrite lookup_insert_eq. reflexivity. Qed.

Lemma live_lt (dd : gmap string (RVal * option Z)) (k : string) (v : RVal) (e now : Z) :
  live dd k now = Some (v, Some e) -> now < e.
Proof.
  unfold live. destruct (dd !! k) as [[v' [y|]]|]; try discriminate.
  destruct (Z.ltb_spec now y); [intros Heq; inversion Heq; subst; assumption | discriminate].
Qed.

Lemma live_some (dd : gmap string (RVal * option Z)) (k : string) (v : RVal) (e now : Z) :
  dd !! k = Some (v, Some e) -> now < e -> live dd k now = Some (v, Some e).
Proof.
  intros H Hlt. unfold live. rewrite H. destruct (Z.ltb_spec now e); [reflexivity | lia].
Qed.

(** The keys of one identity are pairwise distinct. *)
Lemma key_req_scan (ip : string) : ("req_count:" ++ ip)%string <> ("scan_count:" ++ ip)%string.
Proof. discriminate. Qed.

Lemma key_req_blocked (ip : string) : ("req_count:" ++ ip)%string <> ("blocked:" ++ ip)%string.
Proof. discriminate. Qed.

Lemma key_scan_blocked (ip : string) : ("scan_count:" ++ ip)%string <> ("blocked:" ++ ip)%string.
Proof. discriminate. Qed.

Lemma string_length_append (s1 s2 : string) :
  String.length (s1 ++ s2) = (String.length s1 + String.length s2)%nat.
Proof. induction s1 as [| c s1 IH]; simpl; [reflexivity | rewrite IH; reflexivity]. Qed.

Lemma key_blocked_reason (ip : string) :
  ("blocked:" ++ ip)%string <> ("blocked:" ++ ip ++ ":reason")%string.
Proof.
  intros H. apply (f_equal String.length) in H.
  rewrite !string_length_append in H. simpl in H. lia.
Qed.

Lemma string_app_assoc (a b c : string) : ((a ++ b) ++ c)%string = (a ++ b ++ c)%string.
Proof.
  induction a as [| ch a IH]; [reflexivity |].
  change (String ch ((a ++ b) ++ c) = String ch (a ++ b ++ c))%string. rewrite IH. reflexivity.
Qed.

Lemma key_reason_reason (ip : string) :
  ("blocked:" ++ ip ++ ":reason")%string <> ("blocked:" ++ ip ++ ":reason:reason")%string /\
  ("blocked:" ++ ip)%string <> ("blocked:" ++ ip ++ ":reason:reason")%string.
Proof.
  split; intros H; apply (f_equal String.length) in H;
    rewrite !string_length_append in H; simpl in H; lia.
Qed.

(** The shared backend's counting sequence in [monitorMiddleware], on a
    reachable server: it increments the identity's counter, adds the route
    to its set, refreshes both expiries to [now + timeWindow], and hands
    the new counts to the rest of the middleware. *)
Lemma shared_count_path (m : Monitor) (w : World) (ip route : string) (now c : Z)
    (S : gset string) (B : Type) (k : Num -> Num -> M B) :
  r_up (redis w) = true -> 0 < timeWindow m ->
  (live (r_data (redis w)) ("req_count:" ++ ip) now = None /\ c = 0 \/
   exists e, live (r_data (redis w)) ("req_count:" ++ ip) now = Some (RInt c, e)) ->
  (live (r_data (redis w)) ("scan_count:" ++ ip) now = None /\ S = ∅ \/
   exists e, live (r_data (redis w)) ("scan_count:" ++ ip) now = Some (RSet S, e)) ->
  exists w',
    (let! _ := multi [queued (r_incr ("req_count:" ++ ip) now);
                      queued (r_expire ("req_count:" ++ ip) (timeWindow m) now)] in
     let! _ := r_sadd ("scan_count:" ++ ip) route now in
     let! _ := r_expire ("scan_count:" ++ ip) (timeWindow m) now in
     let! requestCount := r_get ("req_count:" ++ ip) now in
     let! scanCount := r_scard ("scan_count:" ++ ip) now in
     k (parseInt requestCount) (Some scanCount)) w
    = k (Some (c + 1)) (Some (Z.of_nat (size ({[route]} ∪ S)))) w' /\
    w' = set_rdata
           (<[("scan_count:" ++ ip)%string :=
                (RSet ({[route]} ∪ S), Some (now + timeWindow m * 1000))]>
             (<[("req_count:" ++ ip)%string :=
                  (RInt (c + 1), Some (now + timeWindow m * 1000))]> (r_data (redis w)))) w.
Proof.
  intros Hup Htw Hreq Hscan.
  set (kr := ("req_count:" ++ ip)%string). set (ks := ("scan_count:" ++ ip)%string).
  assert (Hne : kr <> ks) by apply key_req_scan.
  set (e := now + timeWindow m * 1000).
  assert (Hlt : now < e) by (unfold e; lia).
  (* the counter: INCR then EXPIRE *)
  assert (Hc : multi [queued (r_incr kr now); queued (r_expire kr (timeWindow m) now)] w
               = (inr tt, set_rdata (<[kr := (RInt (c + 1), Some e)]> (r_data (redis w))) w)).
  { unfold multi. rewrite Hup. f_equal. cbn [fold_left]. unfold queued. cbn [snd].
    destruct Hreq as [[Hl ->] | [e0 Hl]].
    - rewrite (r_incr_none w Hup kr now Hl). cbn [snd].
      erewrite (r_expire_some (set_rdata _ w) Hup kr (timeWindow m) now (RInt 1) None)
        by apply live_insert_eq_none.
      cbn [snd]. rewrite r_data_set_rdata, set_rdata_twice, insert_insert_eq. reflexivity.
    - rewrite (r_incr_some w Hup kr now c e0 Hl). cbn [snd].
      erewrite (r_expire_some (set_rdata _ w) Hup kr (timeWindow m) now (RInt (c + 1)) e0).
      + cbn [snd]. rewrite r_data_set_rdata, set_rdata_twice, insert_insert_eq. reflexivity.
      + simpl. destruct e0 as [x|].
        * apply live_insert_eq_some. eapply live_lt. exact Hl.
        * apply live_insert_eq_none. }
  rewrite (bind_inr _ _ _ _ _ Hc).
  set (w1 := set_rdata (<[kr := (RInt (c + 1), Some e)]> (r_data (redis w))) w).
  assert (Hup1 : r_up (redis w1) = true) by exact Hup.
  assert (Hscan1 : live (r_data (redis w1)) ks now = live (r_data (redis w)) ks now)
    by (apply live_insert_ne; exact Hne).
  (* the route set: SADD then EXPIRE *)
  assert (Hs : exists n e0,
            r_sadd ks route now w1
            = (inr n, set_rdata (<[ks := (RSet ({[route]} ∪ S), e0)]> (r_data (redis w1))) w1)
            /\ live (<[ks := (RSet ({[route]} ∪ S), e0)]> (r_data (redis w1))) ks now
               = Some (RSet ({[route]} ∪ S), e0)).
  { destruct Hscan as [[Hl0 ->] | [e0 Hl0]].
    - assert (Hl : live (r_data (redis w1)) ks now = None) by (rewrite Hscan1; exact Hl0).
      exists 1, None. rewrite (r_sadd_none w1 Hup1 ks route now Hl).
      replace ({[route]} ∪ (∅ : gset string)) with ({[route]} : gset string) by set_solver.
      split; [reflexivity | apply live_insert_eq_none].
    - assert (Hl : live (r_data (redis w1)) ks now = Some (RSet S, e0))
        by (rewrite Hscan1; exact Hl0).
      destruct (r_sadd_some w1 Hup1 ks route now S e0 Hl) as [n Hsa].
      exists n, e0. split; [exact Hsa |].
      destruct e0 as [x|].
      + apply live_insert_eq_some. eapply live_lt. exact Hl.
      + apply live_insert_eq_none. }
  destruct Hs as (n & e0 & Hsa & Hlive).
  rewrite (bind_inr _ _ _ _ _ Hsa). cbv beta.
  rewrite (bind_inr _ _ _ _ _ (r_expire_some
             (set_rdata (<[ks := (RSet ({[route]} ∪ S), e0)]> (r_data (redis w1))) w1)
             (r_up_set_rdata _ _ Hup1) ks (timeWindow m) now (RSet ({[route]} ∪ S)) e0 Hlive)).
  cbv beta. rewrite r_data_set_rdata, set_rdata_twice, insert_insert_eq.
  set (w4 := set_rdata (<[ks := (RSet ({[route]} ∪ S), Some (now + timeWindow m * 1000))]>
                          (r_data (redis w1))) w1).
  assert (Hup4 : r_up (redis w4) = true) by exact Hup.
  assert (Hg : live (r_data (redis w4)) kr now = Some (RInt (c + 1), Some e)).
  { unfold w4. rewrite r_data_set_rdata. rewrite live_insert_ne by congruence.
    unfold w1. rewrite r_data_set_rdata. apply live_insert_eq_some. exact Hlt. }
  rewrite (bind_inr _ _ _ _ _ (r_get_int w4 Hup4 kr now (c + 1) (Some e) Hg)).
  assert (Hk : live (r_data (redis w4)) ks now = Some (RSet ({[route]} ∪ S), Some e)).
  { unfold w4. rewrite r_data_set_rdata. apply live_insert_eq_some. exact Hlt. }
  rewrite (bind_inr _ _ _ _ _ (r_scard_some w4 Hup4 ks now ({[route]} ∪ S) (Some e) Hk)).
  eexists. split; [reflexivity |]. reflexivity.
Qed.

(** ** A run of requests from one identity (shared backend) *)

Lemma isIPBlocked_shared_absent (m : Monitor) (ip : string) (now : Z) (w : World) :
  saveRecords m = true -> r_up (redis w) = true ->
  r_data (redis w) !! ("blocked:" ++ ip)%string = None ->
  isIPBlocked m ip now w = (inr false, w).
Proof.
  intros Hs Hup Hb. unfold isIPBlocked, catch. rewrite Hs.
  rewrite (bind_inr _ _ _ _ _ (r_get_none w Hup _ now (live_absent _ _ now Hb))).
  reflexivity.
Qed.

Lemma handleAttackDetection_none (m : Monitor) (ip : string) (rc sc : Num) (now : Z) (w : World) :
  attackTypeOf m rc sc = None -> handleAttackDetection m ip rc sc now w = (inr tt, w).
Proof. intros H. unfold handleAttackDetection. rewrite H. reflexivity. Qed.



Lemma shared_step_trip (m : Monitor) (w : World) (ip : string)
    (done : list (Request * Z)) (req : Request) (now t0 : Z) :
  saveRecords m = true -> getClientIP req = ip ->
  tracked_shared w ip done (t0 + timeWindow m * 1000) -> quiet_subscribers w ->
  t0 <= now < t0 + timeWindow m * 1000 ->
  Z.of_nat (length done) = maxRequests m ->
  exists w', monitorMiddleware m req now w = (inr Next, w') /\
    emitted w' = emitted w ++ [{| ev_ip := ip; ev_type := DDOS; ev_timestamp := now |}] /\
    r_up (redis w') = true /\
    r_data (redis w') !! ("blocked:" ++ ip)%string = Some (RStr "1", Some (now + 300 * 1000)) /\
    r_data (redis w') !! ("blocked:" ++ ip ++ ":reason")%string
      = Some (RStr DDOS, Some (now + 300 * 1000)).
Proof.
  intros Hs Hip (Hup & Hblk & Hcase) Hq Hnow Hlen.
  assert (Htw : 0 < timeWindow m) by lia.
  assert (Hcounts :
    (live (r_data (redis w)) ("req_count:" ++ ip) now = None /\ Z.of_nat (length done) = 0 \/
     exists e, live (r_data (redis w)) ("req_count:" ++ ip) now
               = Some (RInt (Z.of_nat (length done)), e)) /\
    (live (r_data (redis w)) ("scan_count:" ++ ip) now = None /\ routes_of done = ∅ \/
     exists e, live (r_data (redis w)) ("scan_count:" ++ ip) now
               = Some (RSet (routes_of done), e))).
  { destruct Hcase as [(-> & Hr & Hsc) | (e1 & e2 & He1 & He2 & Hr & Hsc)].
    - split; left; split; try apply live_absent; auto.
    - split; right; eexists; apply live_some; eauto; lia. }
  destruct Hcounts as [Hreq Hscan].
  destruct (shared_count_path m w ip (originalUrl req) now (Z.of_nat (length done))
              (routes_of done) unit (fun rc sc => handleAttackDetection m ip rc sc now)
              Hup Htw Hreq Hscan) as (w' & Heq & Hw').
  cbv beta in Heq.
  assert (Hv : attackTypeOf m (Some (Z.of_nat (length done) + 1))
                 (Some (Z.of_nat (size ({[originalUrl req]} ∪ routes_of done)))) = Some DDOS).
  { unfold attackTypeOf, num_gt.
    destruct (Z.ltb_spec (maxRequests m) (Z.of_nat (length done) + 1)); [reflexivity | lia]. }
  assert (Hup' : r_up (redis w') = true) by (rewrite Hw'; exact Hup).
  set (ev := {| ev_ip := ip; ev_type := DDOS; ev_timestamp := now |}).
  set (w'' := set_rdata
               (<[("blocked:" ++ ip ++ ":reason")%string := (RStr DDOS, Some (now + 300 * 1000))]>
                 (<[("blocked:" ++ ip)%string := (RStr "1", Some (now + 300 * 1000))]>
                   (r_data (redis w')))) (add_event ev w')).
  assert (Hh : handleAttackDetection m ip (Some (Z.of_nat (length done) + 1))
                 (Some (Z.of_nat (size ({[originalUrl req]} ∪ routes_of done)))) now w'
               = (inr tt, w'')).
  { assert (Hq' : quiet_subscribers w') by (rewrite Hw'; exact Hq).
    unfold handleAttackDetection. rewrite Hv. unfold bind at 1.
    rewrite (emit_quiet _ _ Hq'). fold ev. rewrite Hs.
    unfold multi. cbv beta. change (r_up (redis (add_event ev w'))) with (r_up (redis w')).
    rewrite Hup'. f_equal. cbn [fold_left].
    rewrite (r_set_ex_ok (add_event ev w') Hup' _ "1" 300 now). cbn [snd].
    rewrite (r_set_ex_ok (set_rdata _ (add_event ev w'))
               (r_up_set_rdata _ (add_event ev w') Hup') _ DDOS 300 now).
    reflexivity. }
  rewrite Hh in Heq.
  unfold monitorMiddleware. rewrite Hip.
  unfold bind at 1. rewrite (isIPBlocked_shared_absent m ip now w Hs Hup Hblk).
  rewrite Hs. cbv beta iota zeta.
  rewrite (bind_inr _ _ _ _ _ Heq).
  exists w''. split; [reflexivity |]. split; [| split; [exact Hup' |]].
  - unfold w''. rewrite Hw'. reflexivity.
  - unfold w''. rewrite r_data_set_rdata. split.
    + rewrite lookup_insert_ne by (apply not_eq_sym, key_blocked_reason).
      apply lookup_insert_eq.
    + apply lookup_insert_eq.
Qed.



(** * Witnesses and counterexamples *)

Ltac decide_forall :=
  apply (@bool_decide_eq_true_1 _ (Forall_dec _ _)); vm_compute; reflexivity.



(** C3 witness: scenario C, [1.2.3.4] blocked by hand with reason
    ['manual']; its next request is denied and changes nothing. *)
Lemma blocked_request_untouched_witness :
  fst (isIPBlocked ex_monitor (getClientIP (ex_req "1.2.3.4" "/x")) 1000 ex_manual_world)
    = inr true /\
  snd (monitorMiddleware ex_monitor (ex_req "1.2.3.4" "/x") 1000 ex_manual_world)
    = ex_manual_world /\
  exists info, fst (monitorMiddleware ex_monitor (ex_req "1.2.3.4" "/x") 1000 ex_manual_world)
               = inr (Denied info).
Proof.
  assert (H : fst (isIPBlocked ex_monitor (getClientIP (ex_req "1.2.3.4" "/x")) 1000
                     ex_manual_world) = inr true) by (vm_compute; reflexivity).
  destruct (blocked_request_untouched ex_monitor (ex_req "1.2.3.4" "/x") 1000
              ex_manual_world H) as (H1 & H2 & _).
  split; [exact H |]. split; [exact H1 |]. apply H2. left. reflexivity.
Defined.

(** C4 witness: the manual block of [1.2.3.4] expires at 300 s; a query at
    400 s answers false and removes it, and a query at 0 s after that also
    answers false. *)
Lemma isIPBlocked_backends_witness :
  saveRecords ex_monitor = false /\
  fst (isIPBlocked ex_monitor "1.2.3.4" 400000 ex_manual_world) = inr false /\
  localBlockedIPs (snd (isIPBlocked ex_monitor "1.2.3.4" 400000 ex_manual_world))
    !! "1.2.3.4" = None /\
  fst (isIPBlocked ex_monitor "1.2.3.4" 0
         (snd (isIPBlocked ex_monitor "1.2.3.4" 400000 ex_manual_world))) = inr false.
Proof.
  destruct (proj1 (isIPBlocked_backends ex_monitor "1.2.3.4" 400000 ex_manual_world) eq_refl)
    as (_ & [_ Hf] & Hexp).
  destruct (Hexp {| expiresAt := 300 * 1000; reason := "manual" |}
              ltac:(vm_compute; reflexivity) ltac:(simpl; lia)) as [Hd Hl].
  split; [reflexivity |]. split.
  - apply Hf. intros (bi & Hbi & Hlt). vm_compute in Hbi. injection Hbi as <-.
    simpl in Hlt. lia.
  - split; [exact Hd | apply Hl].
Defined.

(** C4 counterexample: on the shared backend with the Redis server down, the
    block key of [1.2.3.4] is unexpired at 1 s (a block entry exists with
    [now < expiresAt]), yet [isIPBlocked] answers false. *)
Lemma isIPBlocked_backends_counterexample :
  saveRecords ex_shared_monitor = true /\
  live (r_data (redis ex_down_blocked_world)) "blocked:1.2.3.4" 1000
    = Some (RStr "1", Some (300 * 1000)) /\
  fst (isIPBlocked ex_shared_monitor "1.2.3.4" 1000 ex_down_blocked_world) = inr false.
Proof. split; [reflexivity |]. split; vm_compute; reflexivity. Qed.

(** C5 witness: a shared-backend monitor whose Redis server is down. *)
Lemma shared_backend_down_rejects_witness :
  saveRecords ex_shared_monitor = true /\ r_up (redis (ex_world false)) = false /\
  monitorMiddleware ex_shared_monitor (ex_req "1.2.3.4" "/a") 0 (ex_world false)
    = (inl "Connection is closed."%string, ex_world false).
Proof.
  split; [reflexivity |]. split; [reflexivity |].
  apply (shared_backend_down_rejects ex_shared_monitor (ex_req "1.2.3.4" "/a") 0
           (ex_world false) eq_refl eq_refl).
Defined.

(** C6 counterexample: window of 60 s; ['/a'] at 0 s, then ['/b'] at 120 s.
    The window then starts at 60 s and holds only ['/b'], yet the
    distinct-route count is 2 and ['/a'] is still in the set.  The shared
    backend, whose route set expires [timeWindow] after the last request,
    counts 1 route after the same two requests. *)
Lemma updateLocalTracking_routes_counterexample :
  let w1 := snd (updateLocalTracking ex_monitor "1.2.3.4" "/a" 0 (ex_world true)) in
  fst (updateLocalTracking ex_monitor "1.2.3.4" "/b" 120000 w1) = inr (1, 2) /\
  "/a" ∈ default ∅
    (localRouteScans (snd (updateLocalTracking ex_monitor "1.2.3.4" "/b" 120000 w1))
       !! "1.2.3.4") /\
  let w2 := snd (runAll ex_shared_monitor
                   [(ex_req "1.2.3.4" "/a", 0); (ex_req "1.2.3.4" "/b", 120000)]
                   (ex_world true)) in
  fst (r_scard ("scan_count:" ++ "1.2.3.4") 120000 w2) = inr 1.
Proof.
  split; [| split]; vm_compute; reflexivity.
Qed.

(** C7 witness: the default ephemeral monitor with a subscriber that
    throws, and twelve requests of [1.2.3.4] for ['/a'] at 0..11 ms.  The
    11th gets the rate-abuse verdict, the subscriber throws and the request
    is rejected with no block installed; the 12th is counted again, emits a
    second event for the same identity and is rejected as well. *)
Lemma handleAttackDetection_subscriber_throws_witness :
  attackTypeOf ex_monitor (Some 11) (Some 1) = Some DDOS /\
  first_throw (listeners (ex_world_throwing true))
    {| ev_ip := "1.2.3.4"; ev_type := DDOS; ev_timestamp := 10 |}
    = Some "alert hook failed"%string /\
  handleAttackDetection ex_monitor "1.2.3.4" (Some 11) (Some 1) 10 (ex_world_throwing true)
    = (inl "alert hook failed"%string,
       add_event {| ev_ip := "1.2.3.4"; ev_type := DDOS; ev_timestamp := 10 |}
         (ex_world_throwing true)) /\
  let r := runAll ex_monitor (ex_run (fun _ => "/a") 12) (ex_world_throwing true) in
  nth 10 (fst r) (inr Next) = inl "alert hook failed"%string /\
  nth 11 (fst r) (inr Next) = inl "alert hook failed"%string /\
  emitted (snd r) = [{| ev_ip := "1.2.3.4"; ev_type := DDOS; ev_timestamp := 10 |};
                     {| ev_ip := "1.2.3.4"; ev_type := DDOS; ev_timestamp := 11 |}] /\
  localBlockedIPs (snd r) !! "1.2.3.4" = None.
Proof.
  split; [reflexivity |]. split; [reflexivity |]. split.
  - exact (handleAttackDetection_subscriber_throws ex_monitor "1.2.3.4" (Some 11) (Some 1) 10
             (ex_world_throwing true) DDOS "alert hook failed" eq_refl eq_refl).
  - vm_compute. repeat split.
Defined.

(** C8 witness: [saveRecords] with only [mongoURI] and an empty
    environment throws. *)
Lemma APIMonitor_new_backend_params_witness :
  APIMonitor_new
    {| opt_mongoURI := Some "mongodb://db/monitor"; opt_redisURL := None;
       opt_maxRequests := None; opt_timeWindow := None; opt_scanThreshold := None;
       opt_saveRecords := Some true |} ex_env_none
  = inl "mongoURI and redisURL are required when saveRecords is true"%string.
Proof.
  destruct (APIMonitor_new_backend_params
              {| opt_mongoURI := Some "mongodb://db/monitor"; opt_redisURL := None;
                 opt_maxRequests := None; opt_timeWindow := None;
                 opt_scanThreshold := None; opt_saveRecords := Some true |} ex_env_none)
    as (H & _ & _).
  apply H; [reflexivity | right; split; reflexivity].
Defined.

(** C9 counterexample: an empty [x-forwarded-for] header is present but
    falsy, so the code falls through to [x-real-ip]; taking "present" as
    "exists" would give the trimmed empty value. *)
Lemma getClientIP_precedence_counterexample :
  let req := {| hdr_x_forwarded_for := Some ""; hdr_x_real_ip := Some "5.6.7.8";
                conn_remoteAddress := Some "10.0.0.1"; socket_remoteAddress := Some "10.0.0.1";
                express_ip := Some "10.0.0.1"; originalUrl := "/" |} in
  getClientIP req = "5.6.7.8"%string /\ resolveIdentity_spec header_exists req = ""%string.
Proof. split; vm_compute; reflexivity. Qed.

(** C10 witness: [maxRequests: 0] is replaced by 10. *)
Lemma APIMonitor_new_defaults_witness :
  exists mon,
    APIMonitor_new
      {| opt_mongoURI := None; opt_redisURL := None; opt_maxRequests := Some 0;
         opt_timeWindow := None; opt_scanThreshold := None; opt_saveRecords := None |}
      ex_env_none = inr mon /\
    maxRequests mon = 10 /\ timeWindow mon = 60 /\ scanThreshold mon = 5.
Proof.
  exists ex_monitor.
  assert (H : APIMonitor_new
      {| opt_mongoURI := None; opt_redisURL := None; opt_maxRequests := Some 0;
         opt_timeWindow := None; opt_scanThreshold := None; opt_saveRecords := None |}
      ex_env_none = inr ex_monitor) by reflexivity.
  destruct (APIMonitor_new_defaults _ _ _ H) as (H1 & H2 & H3 & _).
  split; [exact H |].
  split; [apply H1; right; reflexivity |].
  split; [apply H2; left; reflexivity | apply H3; left; reflexivity].
Defined.

(** * Further properties of the code *)

(** ** Read-only Redis commands and the block check *)

Lemma r_get_same (k : string) (now : Z) (w : World) : snd (r_get k now w) = w.
Proof.
  unfold r_get, rcmd. destruct (r_up (redis w)); [| reflexivity].
  destruct (live (r_data (redis w)) k now) as [[[?|?|?] ?]|]; simpl;
    rewrite ?set_rdata_same; reflexivity.
Qed.

Lemma isIPBlocked_frame (m : Monitor) (ip : string) (now : Z) (w : World) :
  snd (isIPBlocked m ip now w) = w \/
  snd (isIPBlocked m ip now w) = set_blocked (delete ip (localBlockedIPs w)) w.
Proof.
  unfold isIPBlocked. destruct (saveRecords m).
  - left. unfold catch, bind, ret.
    pose proof (r_get_same ("blocked:" ++ ip) now w) as H.
    destruct (r_get ("blocked:" ++ ip) now w) as [[?|?] ?]; simpl in *; exact H.
  - destruct (localBlockedIPs w !! ip) as [bi|]; [| left; reflexivity].
    destruct (Z.leb (expiresAt bi) now); [right | left]; reflexivity.
Qed.

Lemma isIPBlocked_frame_expired (m : Monitor) (ip : string) (now : Z) (w : World) :
  snd (isIPBlocked m ip now w) = w \/
  exists bi, localBlockedIPs w !! ip = Some bi /\ expiresAt bi <= now /\
    snd (isIPBlocked m ip now w) = set_blocked (delete ip (localBlockedIPs w)) w.
Proof.
  unfold isIPBlocked. destruct (saveRecords m).
  - left. unfold catch, bind, ret.
    pose proof (r_get_same ("blocked:" ++ ip) now w) as H.
    destruct (r_get ("blocked:" ++ ip) now w) as [[?|?] ?]; simpl in *; exact H.
  - destruct (localBlockedIPs w !! ip) as [bi|] eqn:Hb; [| left; reflexivity].
    destruct (Z.leb_spec (expiresAt bi) now); [right | left; reflexivity].
    exists bi. auto.
Qed.

Lemma handleAttackDetection_local_ok (m : Monitor) (ip : string) (rc sc : Num) (now : Z)
    (w : World) :
  saveRecords m = false -> quiet_subscribers w ->
  fst (handleAttackDetection m ip rc sc now w) = inr tt.
Proof.
  intros Hs Hq. unfold handleAttackDetection.
  destruct (attackTypeOf m rc sc); [| reflexivity].
  unfold bind at 1. rewrite (emit_quiet _ _ Hq). unfold modify. rewrite Hs. reflexivity.
Qed.

Lemma monitorMiddleware_local_ok (m : Monitor) (req : Request) (now : Z) (w : World) :
  saveRecords m = false -> quiet_subscribers w ->
  exists o, fst (monitorMiddleware m req now w) = inr o.
Proof.
  intros Hs Hq. unfold monitorMiddleware, bind at 1, isIPBlocked. rewrite Hs.
  assert (Hnb : forall w1, quiet_subscribers w1 -> exists o,
            fst ((let! _ := (let! counts := updateLocalTracking m (getClientIP req)
                                               (originalUrl req) now in
                             handleAttackDetection m (getClientIP req) (Some (fst counts))
                               (Some (snd counts)) now) in ret Next) w1) = inr o).
  { intros w1 Hq1. exists Next. unfold bind at 1 2.
    destruct (updateLocalTracking m (getClientIP req) (originalUrl req) now w1)
      as [[e|c] w2] eqn:Hu.
    - unfold updateLocalTracking in Hu. inversion Hu.
    - assert (Hq2 : quiet_subscribers w2).
      { pose proof (keeps_updateLocalTracking m (getClientIP req) (originalUrl req) now w1)
          as Hk.
        rewrite Hu in Hk. intros ev. simpl in Hk. rewrite Hk. apply Hq1. }
      pose proof (handleAttackDetection_local_ok m (getClientIP req)
                    (Some (fst c)) (Some (snd c)) now w2 Hs Hq2) as Hh.
      destruct (handleAttackDetection m (getClientIP req) (Some (fst c)) (Some (snd c)) now w2)
        as [[?|[]] ?]; simpl in Hh; [discriminate | reflexivity]. }
  destruct (localBlockedIPs w !! getClientIP req) as [bi|] eqn:Hb.
  - destruct (Z.leb (expiresAt bi) now).
    + apply Hnb. exact Hq.
    + unfold getBlockInfo, bind. rewrite Hs. cbv beta. rewrite Hb. eexists. reflexivity.
  - apply Hnb. exact Hq.
Qed.

(** ** Theorems *)

(** The ephemeral-backend middleware never rejects as long as no
    'attack-detected' subscriber throws: whatever the state and the order
    of the requests, each one is answered with a 403 denial or
    passed on with [next()]; in particular [getBlockInfo] always finds the
    entry [isIPBlocked] has just seen. *)
Theorem monitorMiddleware_local_never_rejects (m : Monitor) (rs : list (Request * Z))
    (w : World) :
  saveRecords m = false -> quiet_subscribers w ->
  Forall (fun r => exists o, r = inr o) (fst (runAll m rs w)).
Proof.
  intros Hs. revert w. induction rs as [| [req now] rest IH]; intros w Hq; simpl;
    [constructor |].
  destruct (monitorMiddleware_local_ok m req now w Hs Hq) as [o Ho].
  pose proof (keeps_monitorMiddleware m req now w) as Hk.
  destruct (monitorMiddleware m req now w) as [r w1]. simpl in Ho, Hk. subst r.
  assert (Hq1 : quiet_subscribers w1) by (intros ev; rewrite Hk; apply Hq).
  specialize (IH w1 Hq1).
  destruct (runAll m rest w1) as [outs w2]. simpl in *.
  constructor; [eexists; reflexivity | exact IH].
Qed.

(** On the shared backend the block check fails soft and reads only: it
    never rejects and never changes any state, and it answers true exactly
    when the server is reachable and the identity's [blocked:] key is
    unexpired and holds a non-empty string or a number. *)
Theorem isIPBlocked_shared_fail_soft (m : Monitor) (ip : string) (now : Z) (w : World) :
  saveRecords m = true ->
  isIPBlocked m ip now w
  = (inr (r_up (redis w) &&
          match live (r_data (redis w)) ("blocked:" ++ ip) now with
          | Some (RInt _, _) => true
          | Some (RStr s, _) => negb (String.eqb s "")
          | _ => false
          end), w).
Proof.
  apply isIPBlocked_shared_eq.
Qed.

(** [blockIPsMiddleware] answers a blocked identity exactly as
    [monitorMiddleware] does (same 403 body, same state afterwards), and
    passes every other request on with [next()]. *)
Theorem blockIPsMiddleware_gate (m : Monitor) (req : Request) (now : Z) (w : World) :
  (fst (isIPBlocked m (getClientIP req) now w) = inr true ->
   blockIPsMiddleware m req now w = monitorMiddleware m req now w) /\
  (fst (isIPBlocked m (getClientIP req) now w) = inr false ->
   blockIPsMiddleware m req now w = (inr Next, snd (isIPBlocked m (getClientIP req) now w))).
Proof.
  split; intros Hb.
  - rewrite (monitorMiddleware_blocked _ _ _ _ Hb).
    unfold blockIPsMiddleware, bind at 1. rewrite (isIPBlocked_true_same _ _ _ _ Hb).
    unfold bind, ret.
    destruct (getBlockInfo m (getClientIP req) now w) as [[?|?] ?]; reflexivity.
  - unfold blockIPsMiddleware, bind at 1.
    destruct (isIPBlocked m (getClientIP req) now w) as [r w1]. simpl in Hb. subst r.
    reflexivity.
Qed.

(** [blockIPsMiddleware] never counts: it leaves every identity's request
    timestamps and route sets, the Redis data and the emitted events as
    they were, and changes the block table at most by dropping the
    requester's entry, and only when that entry has expired
    ([expiresAt <= now]). *)
Theorem blockIPsMiddleware_never_tracks (m : Monitor) (req : Request) (now : Z) (w : World) :
  let w' := snd (blockIPsMiddleware m req now w) in
  localRequestCounts w' = localRequestCounts w /\
  localRouteScans w' = localRouteScans w /\
  redis w' = redis w /\ emitted w' = emitted w /\
  (localBlockedIPs w' = localBlockedIPs w \/
   exists bi, localBlockedIPs w !! getClientIP req = Some bi /\ expiresAt bi <= now /\
     localBlockedIPs w' = delete (getClientIP req) (localBlockedIPs w)).
Proof.
  cbv zeta.
  assert (Hsnd : snd (blockIPsMiddleware m req now w) = w \/
                 exists bi, localBlockedIPs w !! getClientIP req = Some bi /\
                   expiresAt bi <= now /\
                   snd (blockIPsMiddleware m req now w)
                   = set_blocked (delete (getClientIP req) (localBlockedIPs w)) w).
  { destruct (blockIPsMiddleware m req now w) as [r w'] eqn:E. simpl.
    unfold blockIPsMiddleware, bind at 1 in E.
    pose proof (isIPBlocked_frame_expired m (getClientIP req) now w) as Hf.
    destruct (isIPBlocked m (getClientIP req) now w) as [[e|[|]] w1]; simpl in Hf.
    - injection E as _ <-. exact Hf.
    - unfold bind, ret in E. pose proof (getBlockInfo_same m (getClientIP req) now w1) as Hg.
      destruct (getBlockInfo m (getClientIP req) now w1) as [[?|?] w2]; simpl in Hg;
        subst w2; injection E as _ <-; exact Hf.
    - injection E as _ <-. exact Hf. }
  destruct Hsnd as [-> | (bi & Hbi & Hexp & ->)]; simpl; [auto 7 |].
  split; [reflexivity |]. split; [reflexivity |]. split; [reflexivity |].
  split; [reflexivity |]. right. exists bi. auto.
Qed.

(** With the shared backend's server unreachable, [blockIPsMiddleware]
    fails soft: the request is passed on with [next()] and nothing changes
    (where [monitorMiddleware] rejects, see [shared_backend_down_rejects]). *)
Theorem blockIPsMiddleware_backend_down (m : Monitor) (req : Request) (now : Z) (w : World) :
  saveRecords m = true -> r_up (redis w) = false ->
  blockIPsMiddleware m req now w = (inr Next, w).
Proof.
  intros Hs Hdown. unfold blockIPsMiddleware, bind at 1.
  unfold isIPBlocked, catch, bind, r_get, rcmd. rewrite Hs, Hdown. reflexivity.
Qed.

(** On the ephemeral backend, the middleware returned by [blockIPs] has an
    instance of its own, whose block table nothing ever fills: it passes
    every request on, whatever the requests, and its state never changes.
    (Blocks installed by the instance behind [monitorMiddleware] are not
    seen.) *)
Theorem blockIPs_local_never_denies (options : Options) (env : Env) (r : Redis)
    (mon : Monitor) (w0 : World) (rs : list (Request * Z)) :
  blockIPs options env r = inr (mon, w0) -> saveRecords mon = false ->
  runBlockIPs mon rs w0 = (map (fun _ => inr Next) rs, w0).
Proof.
  unfold blockIPs. destruct (APIMonitor_new options env) as [e|mon'] eqn:Hn; [discriminate |].
  intros Heq Hs. injection Heq as <- <-.
  induction rs as [| [req now] rest IH]; [reflexivity |].
  simpl. unfold blockIPsMiddleware, bind at 1, isIPBlocked. rewrite Hs.
  simpl. rewrite lookup_empty. unfold ret. rewrite IH. reflexivity.
Qed.

(** On the ephemeral backend the 403 body of an unexpired block carries
    its reason and its expiry instant, and [blockedFor] is the remaining
    time rounded up to whole seconds: at least 1, and at most 300 for a
    block of at most 300 s; nothing changes. *)
Theorem getBlockInfo_local_remaining (m : Monitor) (ip : string) (now : Z) (w : World)
    (bi : BlockInfo) :
  saveRecords m = false -> localBlockedIPs w !! ip = Some bi -> now < expiresAt bi ->
  exists info, getBlockInfo m ip now w = (inr info, w) /\
    br_reason info = reason bi /\ br_blockedUntil info = expiresAt bi /\
    (br_blockedFor info - 1) * 1000 < expiresAt bi - now <= br_blockedFor info * 1000 /\
    1 <= br_blockedFor info /\
    (expiresAt bi - now <= 300 * 1000 -> br_blockedFor info <= 300).
Proof.
  intros Hs Hb Hlt. unfold getBlockInfo. rewrite Hs, Hb.
  eexists. split; [reflexivity |]. simpl. split; [reflexivity |]. split; [reflexivity |].
  pose proof (Z.div_mod (now - expiresAt bi) 1000 ltac:(lia)) as Hd.
  pose proof (Z.mod_pos_bound (now - expiresAt bi) 1000 ltac:(lia)) as Hm.
  set (q := (now - expiresAt bi) / 1000) in *.
  set (r0 := (now - expiresAt bi) mod 1000) in *.
  split; [lia |]. split; [lia |]. intros H. lia.
Qed.

(** ** Helpers: one identity's requests leave the others alone *)

Lemma agree_at_refl (ip : string) (w : World) : agree_at ip w w.
Proof. unfold agree_at. auto. Qed.

Lemma agree_at_trans (ip : string) (w1 w2 w3 : World) :
  agree_at ip w1 w2 -> agree_at ip w2 w3 -> agree_at ip w1 w3.
Proof. unfold agree_at. intros (? & ? & ? & ?) (? & ? & ? & ?). repeat split; congruence. Qed.

Lemma isIPBlocked_agree (m : Monitor) (ip ip' : string) (now : Z) (w : World) :
  ip <> ip' -> agree_at ip' w (snd (isIPBlocked m ip now w)).
Proof.
  intros Hne. destruct (isIPBlocked_frame m ip now w) as [-> | ->]; [apply agree_at_refl |].
  unfold agree_at. simpl. rewrite lookup_delete_ne by exact Hne. auto.
Qed.

Lemma updateLocalTracking_agree (m : Monitor) (ip ip' route : string) (now : Z) (w : World) :
  ip <> ip' -> agree_at ip' w (snd (updateLocalTracking m ip route now w)).
Proof.
  intros Hne. unfold agree_at, updateLocalTracking. simpl.
  rewrite !lookup_insert_ne by exact Hne. auto.
Qed.

Lemma handleAttackDetection_local_agree (m : Monitor) (ip ip' : string) (rc sc : Num)
    (now : Z) (w : World) :
  saveRecords m = false -> ip <> ip' ->
  agree_at ip' w (snd (handleAttackDetection m ip rc sc now w)).
Proof.
  intros Hs Hne. unfold handleAttackDetection.
  destruct (attackTypeOf m rc sc); [| apply agree_at_refl].
  unfold bind at 1, emit.
  destruct (first_throw (listeners w) _); [unfold agree_at; simpl; auto |].
  unfold modify. rewrite Hs. unfold agree_at. simpl.
  rewrite !lookup_delete_ne, lookup_insert_ne by exact Hne. auto.
Qed.

Lemma local_step_agree (m : Monitor) (req : Request) (now : Z) (w : World) (ip' : string) :
  saveRecords m = false -> getClientIP req <> ip' ->
  agree_at ip' w (snd (monitorMiddleware m req now w)).
Proof.
  intros Hs Hne. unfold monitorMiddleware, bind at 1.
  pose proof (isIPBlocked_agree m _ ip' now w Hne) as H1.
  destruct (isIPBlocked m (getClientIP req) now w) as [[e|[|]] w1]; simpl in H1.
  - exact H1.
  - unfold bind, ret. pose proof (getBlockInfo_same m (getClientIP req) now w1) as Hg.
    destruct (getBlockInfo m (getClientIP req) now w1) as [[?|?] w2]; simpl in Hg;
      subst w2; exact H1.
  - rewrite Hs. unfold bind.
    pose proof (updateLocalTracking_agree m _ ip' (originalUrl req) now w1 Hne) as H2.
    destruct (updateLocalTracking m (getClientIP req) (originalUrl req) now w1)
      as [[?|c] w2] eqn:Hu; [unfold updateLocalTracking in Hu; discriminate |].
    simpl in H2.
    pose proof (handleAttackDetection_local_agree m _ ip' (Some (fst c)) (Some (snd c)) now w2
                  Hs Hne) as H3.
    destruct (handleAttackDetection m (getClientIP req) (Some (fst c)) (Some (snd c)) now w2)
      as [[?|?] w3]; simpl in H3 |- *; eauto using agree_at_trans.
Qed.

(** ** Helpers: the state a verdict leaves *)

Lemma handleAttackDetection_verdict_state (m : Monitor) (ip : string) (rc sc : Num)
    (now : Z) (w : World) (t : string) :
  attackTypeOf m rc sc = Some t -> quiet_subscribers w ->
  (saveRecords m = false \/ r_up (redis w) = true) ->
  exists w1, handleAttackDetection m ip rc sc now w = (inr tt, w1) /\
    emitted w1 = emitted w ++ [{| ev_ip := ip; ev_type := t; ev_timestamp := now |}] /\
    (saveRecords m = false ->
       w1 = set_scans (delete ip (localRouteScans w))
              (set_counts (delete ip (localRequestCounts w))
                 (set_blocked (<[ip := {| expiresAt := now + 300 * 1000; reason := t |}]>
                                 (localBlockedIPs w))
                    (add_event {| ev_ip := ip; ev_type := t; ev_timestamp := now |} w)))) /\
    (saveRecords m = true ->
       w1 = set_rdata
              (<[("blocked:" ++ ip ++ ":reason")%string := (RStr t, Some (now + 300 * 1000))]>
                 (<[("blocked:" ++ ip)%string := (RStr "1", Some (now + 300 * 1000))]>
                    (r_data (redis w))))
              (add_event {| ev_ip := ip; ev_type := t; ev_timestamp := now |} w)).
Proof.
  intros Hv Hq Hb. set (ev := {| ev_ip := ip; ev_type := t; ev_timestamp := now |}).
  unfold handleAttackDetection. rewrite Hv. unfold bind at 1. rewrite (emit_quiet _ _ Hq).
  destruct (saveRecords m) eqn:Hs.
  - destruct Hb as [Hb | Hup]; [discriminate |].
    eexists. split.
    + unfold multi, r_set_ex, rcmd. do 3 (simpl; rewrite ?Hup). reflexivity.
    + split; [reflexivity |]. split; [discriminate | intros _; reflexivity].
  - eexists. split; [reflexivity |]. split; [reflexivity |].
    split; [intros _; reflexivity | discriminate].
Qed.

Lemma attackTypeOf_nonempty (m : Monitor) (rc sc : Num) (t : string) :
  attackTypeOf m rc sc = Some t -> t <> ""%string.
Proof.
  unfold attackTypeOf. destruct (num_gt rc (maxRequests m)); [intros [= <-]; discriminate |].
  destruct (num_gt sc (scanThreshold m)); [intros [= <-]; discriminate | discriminate].
Qed.

Lemma isIPBlocked_shared_live_str (m : Monitor) (ip s : string) (now : Z) (w : World)
    (e : option Z) :
  saveRecords m = true -> r_up (redis w) = true -> s <> ""%string ->
  live (r_data (redis w)) ("blocked:" ++ ip) now = Some (RStr s, e) ->
  isIPBlocked m ip now w = (inr true, w).
Proof.
  intros Hs Hup Hne Hl. unfold isIPBlocked, catch. rewrite Hs.
  rewrite (bind_inr _ _ _ _ _ (r_get_str w Hup _ now s e Hl)). unfold ret. simpl.
  destruct (String.eqb_spec s ""); [contradiction | reflexivity].
Qed.

Lemma isIPBlocked_shared_notlive (m : Monitor) (ip : string) (now : Z) (w : World) :
  saveRecords m = true -> r_up (redis w) = true ->
  live (r_data (redis w)) ("blocked:" ++ ip) now = None ->
  isIPBlocked m ip now w = (inr false, w).
Proof.
  intros Hs Hup Hl. unfold isIPBlocked, catch. rewrite Hs.
  rewrite (bind_inr _ _ _ _ _ (r_get_none w Hup _ now Hl)). reflexivity.
Qed.

(** ** Theorems *)

(** On the ephemeral backend identities are isolated: a run of requests none
    of which resolves to [ip'] leaves the request timestamps, route set and
    block entry of [ip'] as they were (and never touches Redis). *)
Theorem monitorMiddleware_local_isolation (m : Monitor) (rs : list (Request * Z))
    (w : World) (ip' : string) :
  saveRecords m = false ->
  Forall (fun p => getClientIP (fst p) <> ip') rs ->
  agree_at ip' w (snd (runAll m rs w)).
Proof.
  intros Hs. revert w. induction rs as [| [req now] rest IH]; intros w Hall;
    [apply agree_at_refl |].
  apply Forall_cons in Hall as [Hne Hrest]. simpl in Hne. simpl.
  pose proof (local_step_agree m req now w ip' Hs Hne) as H1.
  destruct (monitorMiddleware m req now w) as [r w1]. simpl in H1.
  specialize (IH w1 Hrest). destruct (runAll m rest w1) as [outs w2]. simpl in *.
  eapply agree_at_trans; eauto.
Qed.

(** On the shared backend the keys of two identities can coincide: the
    reason key [blocked:ip:reason] of [ip] is the block key of the identity
    [ip ++ ":reason"] (which a client obtains with the forwarded-for header
    ['<ip>:reason']).  So a verdict against [ip] that completes (no
    'attack-detected' subscriber throws) also blocks that identity for
    300 s: its block check answers true, and its requests are answered with
    a 403 denial whose reason is 'Rate limit exceeded' (its own reason key
    being absent), without being counted or changing any state. *)
Theorem shared_block_key_collision (m : Monitor) (ip : string) (rc sc : Num) (now : Z)
    (w : World) (t : string) (req : Request) (now' : Z) :
  saveRecords m = true -> r_up (redis w) = true ->
  attackTypeOf m rc sc = Some t -> quiet_subscribers w ->
  getClientIP req = (ip ++ ":reason")%string ->
  live (r_data (redis w)) ("blocked:" ++ ip ++ ":reason:reason") now' = None ->
  now <= now' < now + 300 * 1000 ->
  let w1 := snd (handleAttackDetection m ip rc sc now w) in
  isIPBlocked m (getClientIP req) now' w1 = (inr true, w1) /\
  exists info, monitorMiddleware m req now' w1 = (inr (Denied info), w1) /\
    br_reason info = "Rate limit exceeded"%string.
Proof.
  intros Hs Hup Hv Hq Hip Hrr Hnow.
  destruct (handleAttackDetection_verdict_state m ip rc sc now w t Hv Hq (or_intror Hup))
    as (w1 & Heq & _ & _ & Hw1).
  cbv zeta. rewrite Heq. simpl. specialize (Hw1 Hs).
  assert (Hup1 : r_up (redis w1) = true) by (rewrite Hw1; exact Hup).
  assert (Hlb : live (r_data (redis w1)) ("blocked:" ++ getClientIP req) now'
                = Some (RStr t, Some (now + 300 * 1000))).
  { rewrite Hip. apply live_some; [| lia]. rewrite Hw1, r_data_set_rdata. apply lookup_insert_eq. }
  assert (Hbl : isIPBlocked m (getClientIP req) now' w1 = (inr true, w1))
    by exact (isIPBlocked_shared_live_str m _ t now' w1 _ Hs Hup1
                (attackTypeOf_nonempty _ _ _ _ Hv) Hlb).
  split; [exact Hbl |].
  rewrite (monitorMiddleware_blocked m req now' w1 (f_equal fst Hbl)).
  unfold getBlockInfo. rewrite Hs.
  rewrite (bind_inr _ _ _ _ _ (r_ttl_some w1 Hup1 _ now' _ _ Hlb)).
  assert (Hn : live (r_data (redis w1)) ("blocked:" ++ getClientIP req ++ ":reason") now' = None).
  { rewrite Hip, string_app_assoc.
    replace (":reason" ++ ":reason")%string with ":reason:reason"%string by reflexivity.
    destruct (key_reason_reason ip) as [Hk1 Hk2].
    rewrite Hw1, r_data_set_rdata, (live_insert_ne _ _ _ _ _ Hk1), (live_insert_ne _ _ _ _ _ Hk2).
    exact Hrr. }
  rewrite (bind_inr _ _ _ _ _ (r_get_none w1 Hup1 _ now' Hn)).
  eexists. split; reflexivity.
Qed.

(** On the shared backend the 403 body of a live block carries [blockedFor],
    the key's remaining time rounded to the nearest second (Redis [TTL]), and
    [blockedUntil] is that many seconds from now, within 500 ms of the real
    expiry; the reason is the stored one, or 'Rate limit exceeded' when the
    reason key is missing or empty.  Nothing changes. *)
Theorem getBlockInfo_shared_remaining (m : Monitor) (ip : string) (now : Z) (w : World)
    (v : RVal) (e : Z) :
  saveRecords m = true -> r_up (redis w) = true ->
  live (r_data (redis w)) ("blocked:" ++ ip) now = Some (v, Some e) ->
  (live (r_data (redis w)) ("blocked:" ++ ip ++ ":reason") now = None \/
   exists s e', live (r_data (redis w)) ("blocked:" ++ ip ++ ":reason") now
                = Some (RStr s, e')) ->
  exists info, getBlockInfo m ip now w = (inr info, w) /\
    (live (r_data (redis w)) ("blocked:" ++ ip ++ ":reason") now = None ->
       br_reason info = "Rate limit exceeded"%string) /\
    (forall s e', live (r_data (redis w)) ("blocked:" ++ ip ++ ":reason") now
                  = Some (RStr s, e') ->
       br_reason info = if String.eqb s "" then "Rate limit exceeded"%string else s) /\
    e - now - 500 < br_blockedFor info * 1000 <= e - now + 500 /\
    br_blockedUntil info = now + br_blockedFor info * 1000.
Proof.
  intros Hs Hup Hb Hr. pose proof (live_lt _ _ _ _ _ Hb) as Hlt.
  unfold getBlockInfo. rewrite Hs.
  rewrite (bind_inr _ _ _ _ _ (r_ttl_some w Hup _ now e v Hb)).
  assert (Hbound : e - now - 500 < (e - now + 500) / 1000 * 1000 <= e - now + 500).
  { pose proof (Z.div_mod (e - now + 500) 1000 ltac:(lia)).
    pose proof (Z.mod_pos_bound (e - now + 500) 1000 ltac:(lia)). lia. }
  destruct Hr as [Hn | (s & e' & Hsv)].
  - rewrite (bind_inr _ _ _ _ _ (r_get_none w Hup _ now Hn)).
    eexists. split; [reflexivity |]. simpl. split; [reflexivity |].
    split; [intros s e' Hx; congruence |]. split; [exact Hbound | reflexivity].
  - rewrite (bind_inr _ _ _ _ _ (r_get_str w Hup _ now s e' Hsv)).
    eexists. split; [reflexivity |]. simpl. split; [congruence |].
    split; [intros s' e'' Hx; rewrite Hsv in Hx; injection Hx as <- <-; reflexivity |].
    split; [exact Hbound | reflexivity].
Qed.

(** The [res.on('finish')] hook hands [saveLog] a record whose
    [attackType] is 'Blocked' exactly when the identity is blocked at that
    moment, and null otherwise; on the ephemeral backend it writes no record
    at all for an unblocked identity.  The block check is its only effect. *)
Theorem onFinish_log (m : Monitor) (ip route : string) (now : Z) (w : World) :
  (fst (isIPBlocked m ip now w) = inr true ->
   onFinish m ip route now w
   = (inr (Some {| log_ip := ip; log_route := route; log_attackType := Some "Blocked"%string |}),
      w)) /\
  (fst (isIPBlocked m ip now w) = inr false ->
   onFinish m ip route now w
   = (inr (if saveRecords m
           then Some {| log_ip := ip; log_route := route; log_attackType := None |}
           else None), snd (isIPBlocked m ip now w))).
Proof.
  split; intros Hb.
  - unfold onFinish, bind at 1. rewrite (isIPBlocked_true_same _ _ _ _ Hb).
    rewrite orb_true_r. reflexivity.
  - unfold onFinish, bind at 1.
    destruct (isIPBlocked m ip now w) as [r w1]. simpl in Hb |- *. subst r.
    rewrite !orb_false_r. destruct (saveRecords m); reflexivity.
Qed.

(** When [handleAttackDetection] completes a verdict (no 'attack-detected'
    subscriber throws, and on the shared backend the server is reachable),
    the finish hook of that same request, run any time before the 300 s
    block expires with no other request handled in between, finds the
    identity blocked and logs it with [attackType] 'Blocked' (not the
    verdict). *)
Theorem verdict_request_logged_blocked (m : Monitor) (ip route : string) (rc sc : Num)
    (now now' : Z) (w : World) (t : string) :
  attackTypeOf m rc sc = Some t -> quiet_subscribers w ->
  (saveRecords m = false \/ r_up (redis w) = true) ->
  now <= now' < now + 300 * 1000 ->
  fst (onFinish m ip route now' (snd (handleAttackDetection m ip rc sc now w)))
  = inr (Some {| log_ip := ip; log_route := route; log_attackType := Some "Blocked"%string |}).
Proof.
  intros Hv Hq Hb Hnow.
  destruct (handleAttackDetection_verdict_state m ip rc sc now w t Hv Hq Hb)
    as (w1 & Heq & _ & Hl & Hsh).
  rewrite Heq. simpl.
  assert (Hbl : fst (isIPBlocked m ip now' w1) = inr true).
  { destruct (saveRecords m) eqn:Hs.
    - destruct Hb as [Hb | Hup]; [discriminate |]. specialize (Hsh eq_refl).
      assert (Hup1 : r_up (redis w1) = true) by (rewrite Hsh; exact Hup).
      rewrite (isIPBlocked_shared_live_str m ip "1" now' w1 (Some (now + 300 * 1000)) Hs Hup1
                 ltac:(discriminate)); [reflexivity |].
      apply live_some; [| lia]. rewrite Hsh, r_data_set_rdata.
      rewrite lookup_insert_ne by (apply not_eq_sym, key_blocked_reason).
      apply lookup_insert_eq.
    - specialize (Hl eq_refl). unfold isIPBlocked. rewrite Hs, Hl. simpl.
      rewrite lookup_insert_eq.
      replace (expiresAt {| expiresAt := now + 300 * 1000; reason := t |} <=? now')
        with false by (symmetry; apply Z.leb_gt; simpl; lia).
      reflexivity. }
  unfold onFinish, bind at 1. rewrite (isIPBlocked_true_same _ _ _ _ Hbl).
  rewrite orb_true_r. reflexivity.
Qed.

(** On the ephemeral backend a verdict that completes (no 'attack-detected'
    subscriber throws) clears the identity's tracking, so
    once its 300 s block has expired the identity starts afresh: its next
    request drops the stale block entry, is counted as request 1 on 1
    route, gets no verdict (for thresholds of at least 1) and goes on. *)
Theorem local_block_expiry_resets (m : Monitor) (ip : string) (rc sc : Num) (now : Z)
    (w : World) (t : string) (req : Request) (now' : Z) :
  saveRecords m = false -> attackTypeOf m rc sc = Some t -> quiet_subscribers w ->
  getClientIP req = ip -> now + 300 * 1000 <= now' -> 1 <= maxRequests m -> 1 <= scanThreshold m ->
  let w1 := snd (handleAttackDetection m ip rc sc now w) in
  exists w2, monitorMiddleware m req now' w1 = (inr Next, w2) /\
    localRequestCounts w2 !! ip = Some [now'] /\
    localRouteScans w2 !! ip = Some {[originalUrl req]} /\
    localBlockedIPs w2 !! ip = None /\ emitted w2 = emitted w1.
Proof.
  intros Hs Hv Hq Hip Hnow Hmax Hscan.
  destruct (handleAttackDetection_verdict_state m ip rc sc now w t Hv Hq (or_introl Hs))
    as (w1 & Heq & _ & Hl & _).
  cbv zeta. rewrite Heq. simpl. specialize (Hl Hs). subst w1.
  unfold monitorMiddleware, bind at 1, isIPBlocked. rewrite Hs, Hip. simpl.
  rewrite lookup_insert_eq. simpl.
  replace (now + 300 * 1000 <=? now') with true by (symmetry; apply Z.leb_le; lia).
  unfold bind, updateLocalTracking.
  cbn [fst snd localRequestCounts localRouteScans localBlockedIPs set_blocked set_scans
       set_counts add_event].
  rewrite !lookup_delete_eq.
  replace ({[originalUrl req]} ∪ (∅ : gset string)) with ({[originalUrl req]} : gset string)
    by set_solver.
  rewrite size_singleton.
  rewrite handleAttackDetection_none.
  2:{ unfold attackTypeOf, num_gt. simpl. change (Z.of_nat 1) with 1.
      destruct (Z.ltb_spec (maxRequests m) 1); [lia |].
      destruct (Z.ltb_spec (scanThreshold m) 1); [lia | reflexivity]. }
  eexists. split; [reflexivity |]. simpl.
  rewrite !lookup_insert_eq. split; [reflexivity |]. split; [reflexivity |].
  split; [apply lookup_delete_eq | reflexivity].
Qed.

(** On the shared backend a verdict installs the block keys but leaves the
    identity's counter alone.  So when the block key has expired while the
    counter, refreshed at each request, is still live at [maxRequests] or
    more (as with a [timeWindow] above 300 s), the next request yields a
    new rate-abuse verdict at once and, when no 'attack-detected' subscriber
    throws, goes on with one more event and a new 300 s block. *)
Theorem shared_counter_outlives_block (m : Monitor) (w : World) (req : Request) (now c : Z)
    (ec : option Z) (S : gset string) :
  saveRecords m = true -> r_up (redis w) = true -> 0 < timeWindow m ->
  quiet_subscribers w ->
  live (r_data (redis w)) ("blocked:" ++ getClientIP req) now = None ->
  live (r_data (redis w)) ("req_count:" ++ getClientIP req) now = Some (RInt c, ec) ->
  maxRequests m <= c ->
  (live (r_data (redis w)) ("scan_count:" ++ getClientIP req) now = None /\ S = ∅ \/
   exists es, live (r_data (redis w)) ("scan_count:" ++ getClientIP req) now
              = Some (RSet S, es)) ->
  exists w', monitorMiddleware m req now w = (inr Next, w') /\
    emitted w' = emitted w
                 ++ [{| ev_ip := getClientIP req; ev_type := DDOS; ev_timestamp := now |}] /\
    r_data (redis w') !! ("blocked:" ++ getClientIP req)%string
      = Some (RStr "1", Some (now + 300 * 1000)).
Proof.
  intros Hs Hup Htw Hq Hblk Hc Hmax Hscan.
  set (ip := getClientIP req) in *.
  destruct (shared_count_path m w ip (originalUrl req) now c S unit
              (fun rc sc => handleAttackDetection m ip rc sc now) Hup Htw
              (or_intror (ex_intro _ ec Hc)) Hscan) as (w' & Heq & Hw').
  cbv beta in Heq.
  assert (Hv : attackTypeOf m (Some (c + 1)) (Some (Z.of_nat (size ({[originalUrl req]} ∪ S))))
               = Some DDOS).
  { unfold attackTypeOf, num_gt. destruct (Z.ltb_spec (maxRequests m) (c + 1)); [reflexivity | lia]. }
  assert (Hup' : r_up (redis w') = true) by (rewrite Hw'; exact Hup).
  assert (Hq' : quiet_subscribers w') by (rewrite Hw'; exact Hq).
  destruct (handleAttackDetection_verdict_state m ip _ _ now w' DDOS Hv Hq' (or_intror Hup'))
    as (w'' & Hh & He & _ & Hsh).
  rewrite Hh in Heq.
  unfold monitorMiddleware. fold ip.
  unfold bind at 1. rewrite (isIPBlocked_shared_notlive m ip now w Hs Hup Hblk).
  rewrite Hs. cbv beta iota zeta.
  rewrite (bind_inr _ _ _ _ _ Heq).
  exists w''. split; [reflexivity |]. split.
  - rewrite He, Hw'. reflexivity.
  - rewrite (Hsh Hs), r_data_set_rdata.
    rewrite lookup_insert_ne by (apply not_eq_sym, key_blocked_reason).
    apply lookup_insert_eq.
Qed.

(** ** Helpers: a chain of requests on the shared backend *)

Lemma shared_step_chain (m : Monitor) (w : World) (ip : string)
    (done : list (Request * Z)) (req : Request) (now h : Z) :
  saveRecords m = true -> getClientIP req = ip -> 0 < timeWindow m ->
  tracked_shared w ip done h -> now < h ->
  Z.of_nat (length done) + 1 <= maxRequests m ->
  Z.of_nat (size (routes_of (done ++ [(req, now)]))) <= scanThreshold m ->
  exists w', monitorMiddleware m req now w = (inr Next, w') /\
             tracked_shared w' ip (done ++ [(req, now)]) (now + timeWindow m * 1000) /\
             emitted w' = emitted w.
Proof.
  intros Hs Hip Htw (Hup & Hblk & Hcase) Hnow Hlen Hsize.
  assert (Hcounts :
    (live (r_data (redis w)) ("req_count:" ++ ip) now = None /\ Z.of_nat (length done) = 0 \/
     exists e, live (r_data (redis w)) ("req_count:" ++ ip) now
               = Some (RInt (Z.of_nat (length done)), e)) /\
    (live (r_data (redis w)) ("scan_count:" ++ ip) now = None /\ routes_of done = ∅ \/
     exists e, live (r_data (redis w)) ("scan_count:" ++ ip) now
               = Some (RSet (routes_of done), e))).
  { destruct Hcase as [(-> & Hr & Hsc) | (e1 & e2 & He1 & He2 & Hr & Hsc)].
    - split; left; split; try apply live_absent; auto.
    - split; right; eexists; apply live_some; eauto; lia. }
  destruct Hcounts as [Hreq Hscan].
  destruct (shared_count_path m w ip (originalUrl req) now (Z.of_nat (length done))
              (routes_of done) unit (fun rc sc => handleAttackDetection m ip rc sc now)
              Hup Htw Hreq Hscan) as (w' & Heq & Hw').
  cbv beta in Heq.
  rewrite routes_of_app, routes_of_one, (union_comm_L (routes_of done)) in Hsize.
  rewrite handleAttackDetection_none in Heq.
  2:{ unfold attackTypeOf, num_gt.
      destruct (Z.ltb_spec (maxRequests m) (Z.of_nat (length done) + 1)); [lia |].
      destruct (Z.ltb_spec (scanThreshold m)
                  (Z.of_nat (size ({[originalUrl req]} ∪ routes_of done)))); [lia |].
      reflexivity. }
  unfold monitorMiddleware. rewrite Hip.
  unfold bind at 1. rewrite (isIPBlocked_shared_absent m ip now w Hs Hup Hblk).
  rewrite Hs. cbv beta iota zeta.
  rewrite (bind_inr _ _ _ _ _ Heq).
  exists w'. split; [reflexivity |]. split.
  - rewrite Hw'. unfold tracked_shared. rewrite !r_data_set_rdata. split; [exact Hup |].
    split.
    + rewrite !lookup_insert_ne by (apply key_req_blocked || apply key_scan_blocked).
      exact Hblk.
    + right. exists (now + timeWindow m * 1000), (now + timeWindow m * 1000).
      split; [lia |]. split; [lia |]. split.
      * rewrite lookup_insert_ne by (intros Heq'; symmetry in Heq'; revert Heq'; apply key_req_scan).
        rewrite lookup_insert_eq. rewrite length_app. simpl. do 3 f_equal. lia.
      * rewrite lookup_insert_eq. rewrite routes_of_app, routes_of_one, union_comm_L.
        reflexivity.
  - rewrite Hw'. reflexivity.
Qed.

Lemma tracked_shared_mono (w : World) (ip : string) (done : list (Request * Z)) (h h' : Z) :
  h' <= h -> tracked_shared w ip done h -> tracked_shared w ip done h'.
Proof.
  intros Hle (Hup & Hb & [Hn | (e1 & e2 & H1 & H2 & Hr & Hsc)]); unfold tracked_shared;
    [auto |].
  split; [exact Hup |]. split; [exact Hb |]. right. exists e1, e2. repeat split; auto; lia.
Qed.

Lemma shared_run_chain (m : Monitor) (ip : string) (pre : list (Request * Z))
    (trip : Request * Z) :
  forall (done : list (Request * Z)) (w : World) (h : Z),
  saveRecords m = true -> 0 < timeWindow m -> tracked_shared w ip done h ->
  Forall (fun p => getClientIP (fst p) = ip) pre ->
  arrive_chained (timeWindow m * 1000) h (pre ++ [trip]) ->
  Z.of_nat (length (done ++ pre)) <= maxRequests m ->
  Z.of_nat (size (routes_of (done ++ pre))) <= scanThreshold m ->
  exists h', fst (runAll m pre w) = map (fun _ => inr Next) pre /\
    tracked_shared (snd (runAll m pre w)) ip (done ++ pre) h' /\
    emitted (snd (runAll m pre w)) = emitted w /\
    snd trip < h'.
Proof.
  induction pre as [| [req now] rest IH]; intros done w h Hs Htw Htr Hip Hch Hlen Hsize.
  - exists h. rewrite app_nil_r. simpl in *. destruct trip as [? ?].
    destruct Hch as [Hlt _]. auto.
  - apply Forall_cons in Hip as [Hip1 Hiprest]. simpl in Hip1. subst ip.
    destruct Hch as [Hnow Hch].
    destruct (shared_step_chain m w (getClientIP req) done req now h Hs eq_refl Htw Htr Hnow)
      as (w' & Hstep & Htr' & Hem).
    + rewrite length_app in Hlen. simpl in Hlen. lia.
    + eapply Z.le_trans; [| exact Hsize]. apply inj_le. apply subseteq_size.
      rewrite !routes_of_app. unfold routes_of. simpl. set_solver.
    + simpl. rewrite Hstep.
      destruct (IH (done ++ [(req, now)]) w' _ Hs Htw Htr' Hiprest Hch) as (h' & Ho & Ht & He & Hlt).
      * rewrite <- app_assoc. exact Hlen.
      * rewrite <- app_assoc. exact Hsize.
      * exists h'. destruct (runAll m rest w') as [outs w2]. simpl in *.
        rewrite Ho. split; [reflexivity |].
        rewrite <- app_assoc in Ht. split; [exact Ht |]. split; [congruence | exact Hlt].
Qed.

(** ** Theorems *)

(** On the shared backend each request pushes the expiry of the identity's
    counter to [now + timeWindow], so the counter is a run length, not a
    count per window: requests that each arrive less than [timeWindow]
    seconds after the previous one are all counted, however long the run
    lasts.  For a fresh identity, [maxRequests] such requests on at most
    [scanThreshold] routes go on with no verdict, and the next one (still
    less than [timeWindow] after its predecessor) is classified rate-abusive
    and, when no 'attack-detected' subscriber throws, goes on. *)
Theorem shared_chain_accumulates (m : Monitor) (w : World) (ip : string) (h : Z)
    (pre : list (Request * Z)) (trip : Request * Z) :
  saveRecords m = true -> 0 < timeWindow m -> fresh_identity m w ip ->
  quiet_subscribers w ->
  Forall (fun p => getClientIP (fst p) = ip) (pre ++ [trip]) ->
  arrive_chained (timeWindow m * 1000) h (pre ++ [trip]) ->
  Z.of_nat (length pre) = maxRequests m ->
  Z.of_nat (size (routes_of pre)) <= scanThreshold m ->
  fst (runAll m pre w) = map (fun _ => inr Next) pre /\
  emitted (snd (runAll m pre w)) = emitted w /\
  fst (monitorMiddleware m (fst trip) (snd trip) (snd (runAll m pre w))) = inr Next /\
  emitted (snd (monitorMiddleware m (fst trip) (snd trip) (snd (runAll m pre w))))
    = emitted w ++ [{| ev_ip := ip; ev_type := DDOS; ev_timestamp := snd trip |}].
Proof.
  intros Hs Htw Hfresh Hq Hip Hch Hlen Hsize.
  unfold fresh_identity in Hfresh. rewrite Hs in Hfresh.
  destruct Hfresh as (Hup & Hb & Hc & Hr).
  apply Forall_app in Hip as [Hippre Hiptrip]. apply Forall_cons in Hiptrip as [Hiptrip _].
  assert (Htr0 : tracked_shared w ip [] h) by (unfold tracked_shared; auto 6).
  destruct (shared_run_chain m ip pre trip [] w h Hs Htw Htr0 Hippre Hch)
    as (h' & Ho1 & Htr1 & He1 & Hlt).
  - simpl. lia.
  - exact Hsize.
  - destruct trip as [req now]. simpl in Hiptrip, Hlt |- *.
    apply (tracked_shared_mono _ _ _ _ (now + 1)) in Htr1; [| lia].
    replace (now + 1) with ((now + 1 - timeWindow m * 1000) + timeWindow m * 1000) in Htr1
      by lia.
    destruct (shared_step_trip m (snd (runAll m pre w)) ip pre req now
                (now + 1 - timeWindow m * 1000) Hs Hiptrip Htr1 (quiet_runAll m pre w Hq)
                ltac:(lia) Hlen)
      as (w2 & Hstep & He2 & _).
    rewrite Hstep. simpl. split; [exact Ho1 |]. split; [exact He1 |]. split; [reflexivity |].
    rewrite He2, He1. reflexivity.
Qed.

(** ** Witnesses *)

(** Twelve requests of one identity on the ephemeral backend, the last one
    denied: none is rejected. *)
Lemma monitorMiddleware_local_never_rejects_witness :
  saveRecords ex_monitor = false /\ quiet_subscribers (ex_world true) /\
  Forall (fun r => exists o, r = inr o)
    (fst (runAll ex_monitor (ex_run (fun _ => "/a") 12) (ex_world true))).
Proof.
  assert (Hq : quiet_subscribers (ex_world true)) by (intros ev; reflexivity).
  split; [reflexivity |]. split; [exact Hq |].
  apply (monitorMiddleware_local_never_rejects ex_monitor (ex_run (fun _ => "/a") 12)
           (ex_world true) eq_refl Hq).
Defined.

(** A live block key holding ['1']: the check answers true, state unchanged. *)
Lemma isIPBlocked_shared_fail_soft_witness :
  let w := {| localRequestCounts := ∅; localRouteScans := ∅; localBlockedIPs := ∅;
              redis := {| r_up := true;
                          r_data := {[ "blocked:1.2.3.4" := (RStr "1", Some 1000) ]} |};
              emitted := []; listeners := [] |} in
  saveRecords ex_shared_monitor = true /\
  isIPBlocked ex_shared_monitor "1.2.3.4" 0 w = (inr true, w).
Proof.
  cbv zeta. split; [reflexivity |].
  rewrite (isIPBlocked_shared_fail_soft ex_shared_monitor "1.2.3.4" 0 _ eq_refl).
  vm_compute. reflexivity.
Defined.

(** The identity blocked by hand gets the same answer from both middlewares. *)
Lemma blockIPsMiddleware_gate_witness :
  fst (isIPBlocked ex_monitor "1.2.3.4" 0 ex_manual_world) = inr true /\
  blockIPsMiddleware ex_monitor (ex_req "1.2.3.4" "/a") 0 ex_manual_world
  = monitorMiddleware ex_monitor (ex_req "1.2.3.4" "/a") 0 ex_manual_world.
Proof.
  split; [vm_compute; reflexivity |].
  apply (proj1 (blockIPsMiddleware_gate ex_monitor (ex_req "1.2.3.4" "/a") 0
                  ex_manual_world)).
  vm_compute. reflexivity.
Defined.

(** An unreachable server: the request goes on. *)
Lemma blockIPsMiddleware_backend_down_witness :
  saveRecords ex_shared_monitor = true /\ r_up (redis (ex_world false)) = false /\
  blockIPsMiddleware ex_shared_monitor (ex_req "1.2.3.4" "/a") 0 (ex_world false)
  = (inr Next, ex_world false).
Proof.
  split; [reflexivity |]. split; [reflexivity |].
  apply (blockIPsMiddleware_backend_down ex_shared_monitor (ex_req "1.2.3.4" "/a") 0
           (ex_world false) eq_refl eq_refl).
Defined.

(** [blockIPs()] with no options: twelve requests of one identity, all
    passed on (where [monitorMiddleware] denies the last one). *)
Lemma blockIPs_local_never_denies_witness :
  let r := {| r_up := true; r_data := ∅ |} in
  blockIPs ex_no_options ex_env_none r = inr (ex_monitor, new_instance_world r) /\
  saveRecords ex_monitor = false /\
  runBlockIPs ex_monitor (ex_run (fun _ => "/a") 12) (new_instance_world r)
  = (map (fun _ => inr Next) (ex_run (fun _ => "/a") 12), new_instance_world r).
Proof.
  cbv zeta. split; [reflexivity |]. split; [reflexivity |].
  apply (blockIPs_local_never_denies ex_no_options ex_env_none _ ex_monitor _ _
           eq_refl eq_refl).
Defined.

(** The manual block until 300 s, looked up at 1.5 s: 298.5 s remain,
    reported as 299. *)
Lemma getBlockInfo_local_remaining_witness :
  let bi := {| expiresAt := 300 * 1000; reason := "manual" |} in
  saveRecords ex_monitor = false /\
  localBlockedIPs ex_manual_world !! "1.2.3.4" = Some bi /\ 1500 < expiresAt bi /\
  exists info, getBlockInfo ex_monitor "1.2.3.4" 1500 ex_manual_world
               = (inr info, ex_manual_world) /\
    br_reason info = "manual"%string /\ br_blockedFor info = 299.
Proof.
  cbv zeta. split; [reflexivity |]. split; [reflexivity |]. split; [simpl; lia |].
  destruct (getBlockInfo_local_remaining ex_monitor "1.2.3.4" 1500 ex_manual_world
              {| expiresAt := 300 * 1000; reason := "manual" |} eq_refl eq_refl
              ltac:(simpl; lia))
    as (info & Heq & Hr & _ & Hb & _).
  exists info. split; [exact Heq |]. split; [exact Hr |]. simpl in Hb. lia.
Defined.

(** Twelve requests of [1.2.3.4] leave the manual block of [1.2.3.4]'s
    neighbour [5.6.7.8] alone. *)
Lemma monitorMiddleware_local_isolation_witness :
  let w := {| localRequestCounts := ∅; localRouteScans := ∅;
              localBlockedIPs := {[ "5.6.7.8" := {| expiresAt := 300 * 1000;
                                                    reason := "manual" |} ]};
              redis := {| r_up := true; r_data := ∅ |}; emitted := []; listeners := [] |} in
  saveRecords ex_monitor = false /\
  Forall (fun p => getClientIP (fst p) <> "5.6.7.8"%string) (ex_run (fun _ => "/a") 12) /\
  agree_at "5.6.7.8" w (snd (runAll ex_monitor (ex_run (fun _ => "/a") 12) w)).
Proof.
  cbv zeta. split; [reflexivity |].
  assert (H : Forall (fun p => getClientIP (fst p) <> "5.6.7.8"%string)
                (ex_run (fun _ => "/a") 12)) by decide_forall.
  split; [exact H |].
  apply (monitorMiddleware_local_isolation ex_monitor _ _ "5.6.7.8" eq_refl H).
Defined.

(** A rate-abuse verdict against [1.2.3.4] at 0 blocks the identity
    ['1.2.3.4:reason'] at 1 s. *)
Lemma shared_block_key_collision_witness :
  saveRecords ex_shared_monitor = true /\ r_up (redis (ex_world true)) = true /\
  attackTypeOf ex_shared_monitor (Some 11) (Some 1) = Some DDOS /\
  quiet_subscribers (ex_world true) /\
  getClientIP ex_reason_req = ("1.2.3.4" ++ ":reason")%string /\
  live (r_data (redis (ex_world true))) ("blocked:" ++ "1.2.3.4" ++ ":reason:reason") 1000
    = None /\
  let w1 := snd (handleAttackDetection ex_shared_monitor "1.2.3.4" (Some 11) (Some 1) 0
                   (ex_world true)) in
  isIPBlocked ex_shared_monitor (getClientIP ex_reason_req) 1000 w1 = (inr true, w1) /\
  exists info, monitorMiddleware ex_shared_monitor ex_reason_req 1000 w1
               = (inr (Denied info), w1) /\
    br_reason info = "Rate limit exceeded"%string.
Proof.
  split; [reflexivity |]. split; [reflexivity |]. split; [reflexivity |].
  assert (Hq : quiet_subscribers (ex_world true)) by (intros ev; reflexivity).
  split; [exact Hq |].
  assert (Hip : getClientIP ex_reason_req = ("1.2.3.4" ++ ":reason")%string)
    by (vm_compute; reflexivity).
  split; [exact Hip |].
  assert (Hrr : live (r_data (redis (ex_world true))) ("blocked:" ++ "1.2.3.4" ++ ":reason:reason")
                  1000 = None) by (vm_compute; reflexivity).
  split; [exact Hrr |].
  exact (shared_block_key_collision ex_shared_monitor "1.2.3.4" (Some 11) (Some 1) 0
           (ex_world true) DDOS ex_reason_req 1000 eq_refl eq_refl eq_refl Hq Hip Hrr
           ltac:(lia)).
Defined.

(** After a rate-abuse verdict at 0, the 403 body at 1 s carries the
    verdict as reason and 299 s. *)
Lemma getBlockInfo_shared_remaining_witness :
  let w := snd (handleAttackDetection ex_shared_monitor "1.2.3.4" (Some 11) (Some 1) 0
                  (ex_world true)) in
  saveRecords ex_shared_monitor = true /\ r_up (redis w) = true /\
  live (r_data (redis w)) ("blocked:" ++ "1.2.3.4") 1000 = Some (RStr "1", Some 300000) /\
  live (r_data (redis w)) ("blocked:" ++ "1.2.3.4" ++ ":reason") 1000
    = Some (RStr DDOS, Some 300000) /\
  exists info, getBlockInfo ex_shared_monitor "1.2.3.4" 1000 w = (inr info, w) /\
    br_reason info = DDOS /\ br_blockedFor info = 299.
Proof.
  cbv zeta.
  assert (Hr : live (r_data (redis (snd (handleAttackDetection ex_shared_monitor "1.2.3.4"
                 (Some 11) (Some 1) 0 (ex_world true))))) ("blocked:" ++ "1.2.3.4" ++ ":reason")
                 1000 = Some (RStr DDOS, Some 300000)) by (vm_compute; reflexivity).
  split; [reflexivity |]. split; [vm_compute; reflexivity |].
  split; [vm_compute; reflexivity |]. split; [exact Hr |].
  destruct (getBlockInfo_shared_remaining ex_shared_monitor "1.2.3.4" 1000
              (snd (handleAttackDetection ex_shared_monitor "1.2.3.4" (Some 11) (Some 1) 0
                      (ex_world true))) (RStr "1") 300000
              eq_refl ltac:(vm_compute; reflexivity) ltac:(vm_compute; reflexivity)
              (or_intror (ex_intro _ DDOS (ex_intro _ (Some 300000) Hr))))
    as (info & Heq & _ & Hs & Hb & _).
  exists info. split; [exact Heq |]. split; [exact (Hs _ _ Hr) | lia].
Defined.

(** The identity blocked by hand: its finish hook logs it as blocked. *)
Lemma onFinish_log_witness :
  fst (isIPBlocked ex_monitor "1.2.3.4" 0 ex_manual_world) = inr true /\
  onFinish ex_monitor "1.2.3.4" "/a" 0 ex_manual_world
  = (inr (Some {| log_ip := "1.2.3.4"; log_route := "/a";
                  log_attackType := Some "Blocked"%string |}), ex_manual_world).
Proof.
  assert (H : fst (isIPBlocked ex_monitor "1.2.3.4" 0 ex_manual_world) = inr true)
    by (vm_compute; reflexivity).
  split; [exact H |].
  exact (proj1 (onFinish_log ex_monitor "1.2.3.4" "/a" 0 ex_manual_world) H).
Defined.

(** The eleventh request at 0 on the ephemeral backend, finished at 1 s. *)
Lemma verdict_request_logged_blocked_witness :
  attackTypeOf ex_monitor (Some 11) (Some 1) = Some DDOS /\
  quiet_subscribers (ex_world true) /\
  fst (onFinish ex_monitor "1.2.3.4" "/a" 1000
         (snd (handleAttackDetection ex_monitor "1.2.3.4" (Some 11) (Some 1) 0
                 (ex_world true))))
  = inr (Some {| log_ip := "1.2.3.4"; log_route := "/a";
                 log_attackType := Some "Blocked"%string |}).
Proof.
  assert (Hq : quiet_subscribers (ex_world true)) by (intros ev; reflexivity).
  split; [reflexivity |]. split; [exact Hq |].
  exact (verdict_request_logged_blocked ex_monitor "1.2.3.4" "/a" (Some 11) (Some 1) 0 1000
           (ex_world true) DDOS eq_refl Hq (or_introl eq_refl) ltac:(lia)).
Defined.

(** A verdict at 0, then a request for ['/b'] at 300 s. *)
Lemma local_block_expiry_resets_witness :
  saveRecords ex_monitor = false /\ attackTypeOf ex_monitor (Some 11) (Some 1) = Some DDOS /\
  quiet_subscribers (ex_world true) /\
  getClientIP (ex_req "1.2.3.4" "/b") = "1.2.3.4"%string /\
  let w1 := snd (handleAttackDetection ex_monitor "1.2.3.4" (Some 11) (Some 1) 0
                   (ex_world true)) in
  exists w2, monitorMiddleware ex_monitor (ex_req "1.2.3.4" "/b") 300000 w1 = (inr Next, w2) /\
    localRequestCounts w2 !! "1.2.3.4" = Some [300000] /\
    localRouteScans w2 !! "1.2.3.4" = Some {[ "/b"%string ]} /\
    localBlockedIPs w2 !! "1.2.3.4" = None /\ emitted w2 = emitted w1.
Proof.
  assert (Hq : quiet_subscribers (ex_world true)) by (intros ev; reflexivity).
  split; [reflexivity |]. split; [reflexivity |]. split; [exact Hq |].
  assert (Hip : getClientIP (ex_req "1.2.3.4" "/b") = "1.2.3.4"%string)
    by (vm_compute; reflexivity).
  split; [exact Hip |].
  exact (local_block_expiry_resets ex_monitor "1.2.3.4" (Some 11) (Some 1) 0 (ex_world true)
           DDOS (ex_req "1.2.3.4" "/b") 300000 eq_refl eq_refl Hq Hip ltac:(lia)
           ltac:(vm_compute; discriminate) ltac:(vm_compute; discriminate)).
Defined.

(** Window of 600 s: eleven requests at 0..10 ms trip a verdict; at 300.02 s
    the block has expired but the counter (11) has not, and one more request
    yields a second verdict. *)
Lemma shared_counter_outlives_block_witness :
  let w := snd (runAll ex_long_window_monitor (ex_run (fun _ => "/a") 11) (ex_world true)) in
  let req := ex_req "1.2.3.4" "/a" in
  saveRecords ex_long_window_monitor = true /\ r_up (redis w) = true /\
  0 < timeWindow ex_long_window_monitor /\ quiet_subscribers w /\
  live (r_data (redis w)) ("blocked:" ++ getClientIP req) 300020 = None /\
  live (r_data (redis w)) ("req_count:" ++ getClientIP req) 300020
    = Some (RInt 11, Some 600010) /\
  maxRequests ex_long_window_monitor <= 11 /\
  live (r_data (redis w)) ("scan_count:" ++ getClientIP req) 300020
    = Some (RSet {[ "/a"%string ]}, Some 600010) /\
  exists w', monitorMiddleware ex_long_window_monitor req 300020 w = (inr Next, w') /\
    emitted w' = emitted w
                 ++ [{| ev_ip := "1.2.3.4"; ev_type := DDOS; ev_timestamp := 300020 |}].
Proof.
  cbv zeta.
  set (w := snd (runAll ex_long_window_monitor (ex_run (fun _ => "/a") 11) (ex_world true))).
  assert (Hup : r_up (redis w) = true) by (vm_compute; reflexivity).
  assert (Hb : live (r_data (redis w)) ("blocked:" ++ getClientIP (ex_req "1.2.3.4" "/a"))
                 300020 = None) by (vm_compute; reflexivity).
  assert (Hc : live (r_data (redis w)) ("req_count:" ++ getClientIP (ex_req "1.2.3.4" "/a"))
                 300020 = Some (RInt 11, Some 600010)) by (vm_compute; reflexivity).
  assert (Hsc : live (r_data (redis w)) ("scan_count:" ++ getClientIP (ex_req "1.2.3.4" "/a"))
                  300020 = Some (RSet {[ "/a"%string ]}, Some 600010))
    by (vm_compute; reflexivity).
  assert (Hq : quiet_subscribers w)
    by exact (quiet_runAll _ _ (ex_world true) (fun ev => eq_refl)).
  split; [reflexivity |]. split; [exact Hup |]. split; [reflexivity |]. split; [exact Hq |].
  split; [exact Hb |]. split; [exact Hc |]. split; [vm_compute; discriminate |].
  split; [exact Hsc |].
  destruct (shared_counter_outlives_block ex_long_window_monitor w (ex_req "1.2.3.4" "/a")
              300020 11 (Some 600010) {[ "/a"%string ]} eq_refl Hup eq_refl Hq Hb Hc
              ltac:(vm_compute; discriminate) (or_intror (ex_intro _ (Some 600010) Hsc)))
    as (w' & Heq & He & _).
  exists w'. split; [exact Heq |]. exact He.
Defined.

(** Eleven requests of one identity, one every 59 s over 590 s with a 60 s
    window: the eleventh trips a rate-abuse verdict. *)
Lemma shared_chain_accumulates_witness :
  saveRecords ex_shared_monitor = true /\ 0 < timeWindow ex_shared_monitor /\
  fresh_identity ex_shared_monitor (ex_world true) "1.2.3.4" /\
  quiet_subscribers (ex_world true) /\
  Forall (fun p => getClientIP (fst p) = "1.2.3.4"%string)
    (ex_chain 10 ++ [(ex_req "1.2.3.4" "/a", 590000)]) /\
  arrive_chained (timeWindow ex_shared_monitor * 1000) 1
    (ex_chain 10 ++ [(ex_req "1.2.3.4" "/a", 590000)]) /\
  Z.of_nat (length (ex_chain 10)) = maxRequests ex_shared_monitor /\
  Z.of_nat (size (routes_of (ex_chain 10))) <= scanThreshold ex_shared_monitor /\
  emitted (snd (monitorMiddleware ex_shared_monitor (ex_req "1.2.3.4" "/a") 590000
                  (snd (runAll ex_shared_monitor (ex_chain 10) (ex_world true)))))
  = [{| ev_ip := "1.2.3.4"; ev_type := DDOS; ev_timestamp := 590000 |}].
Proof.
  assert (Hf : fresh_identity ex_shared_monitor (ex_world true) "1.2.3.4")
    by (vm_compute; repeat split).
  assert (Hip : Forall (fun p => getClientIP (fst p) = "1.2.3.4"%string)
                  (ex_chain 10 ++ [(ex_req "1.2.3.4" "/a", 590000)])) by decide_forall.
  assert (Hch : arrive_chained (timeWindow ex_shared_monitor * 1000) 1
                  (ex_chain 10 ++ [(ex_req "1.2.3.4" "/a", 590000)]))
    by (simpl; lia).
  assert (Hsz : Z.of_nat (size (routes_of (ex_chain 10))) <= scanThreshold ex_shared_monitor)
    by (vm_compute; discriminate).
  assert (Hq : quiet_subscribers (ex_world true)) by (intros ev; reflexivity).
  split; [reflexivity |]. split; [reflexivity |]. split; [exact Hf |]. split; [exact Hq |].
  split; [exact Hip |]. split; [exact Hch |]. split; [reflexivity |]. split; [exact Hsz |].
  destruct (shared_chain_accumulates ex_shared_monitor (ex_world true) "1.2.3.4" 1
              (ex_chain 10) (ex_req "1.2.3.4" "/a", 590000) eq_refl eq_refl Hf Hq Hip Hch
              eq_refl Hsz) as (_ & _ & _ & He).
  exact He.
Defined.
